(** * BudgetBuddy: the ledger of [budget.js]

    A shallow embedding of [budget.js] (a Node.js command-line budget
    tracker) and the properties of its ledger: the balance, the goal alerts
    and the three commands that change the persisted document ([add],
    [delete], [setgoal]).

    The program is JavaScript, so the embedding comes in two layers:

    - [Module JS]: the part of the language the program relies on: IEEE
      binary64 numbers, the [+], [-], [>], [<=], [||] operators on the values
      that occur, [parseFloat], property access and assignment on ordinary
      objects (with what they inherit from [Object.prototype]), the order in
      which [for ... in] visits the keys, and what a [JSON.stringify] /
      [JSON.parse] round trip does to a document;
    - the program itself, function by function. *)

From Stdlib Require Import ZArith NArith List String Ascii Bool Lia.
From Stdlib Require Import Sorted Permutation.
From Stdlib Require Import SpecFloat.
From Stdlib Require Import DecimalString DecimalZ DecimalN.
Import ListNotations.

Local Open Scope string_scope.
Local Open Scope list_scope.
Local Open Scope Z_scope.

(* ================================================================= *)
(** ** The JavaScript the program relies on *)

Module JS.

(** *** Numbers

    A JavaScript Number is an IEEE 754 binary64 value.  [spec_float] with
    precision 53 and maximal exponent 1024 is the Standard Library's
    specification of that format and of its round-to-nearest-even
    arithmetic. *)

Definition number : Type := spec_float.
Definition prec : Z := 53.
Definition emax : Z := 1024.

Definition pzero : number := S754_zero false.
Definition infinity : number := S754_infinity false.
Definition NaN : number := S754_nan.

Definition num_add : number -> number -> number := SFadd prec emax.
Definition num_sub : number -> number -> number := SFsub prec emax.
Definition num_lt : number -> number -> bool := SFltb.
Definition num_le : number -> number -> bool := SFleb.

(** The Number nearest to an integer. *)
Definition of_Z (z : Z) : number := binary_normalize prec emax z 0 false.

Definition isNaN (x : number) : bool :=
  match x with S754_nan => true | _ => false end.

Definition isFinite (x : number) : bool :=
  match x with S754_nan | S754_infinity _ => false | _ => true end.

(** Numbers with a clear sign bit: [+0], the positive finite numbers and
    [+Infinity]. *)
Definition nonneg (x : number) : Prop :=
  match x with
  | S754_zero s | S754_infinity s | S754_finite s _ _ => s = false
  | S754_nan => False
  end.

(** *** Values

    The values that the program's expressions can take.  A numeric field of
    the document read back from [data.json] is a number or [null] ([jnum]);
    reading a property of an object adds [undefined] and the members every
    object inherits from [Object.prototype]; [+] applied to such a member
    yields a string.

    The text of that string is not tracked: it starts with the source text
    of a built-in function ("function Object() { [native code] }") or with
    "[object Object]", to which [+] appends further text, so it is never
    empty and never a numeric literal, which is all that [||], [+] and [>]
    look at. *)

Inductive jnum : Type :=
| JNum (x : number)
| JNull.

Inductive value : Type :=
| VUndefined
| VNull
| VNum (x : number)
| VProtoMember      (* a function of Object.prototype, or Object.prototype *)
| VString.          (* text built by [+] from such a member *)

Definition val (a : jnum) : value :=
  match a with JNum x => VNum x | JNull => VNull end.

Definition ToBoolean (v : value) : bool :=
  match v with
  | VUndefined | VNull => false
  | VNum (S754_zero _) | VNum S754_nan => false
  | VNum _ => true
  | VProtoMember | VString => true
  end.

Definition ToNumber (v : value) : number :=
  match v with
  | VUndefined => NaN
  | VNull => pzero
  | VNum x => x
  | VProtoMember | VString => NaN
  end.

(** [a || b] *)
Definition js_or (a b : value) : value := if ToBoolean a then a else b.

(** [a + b]: concatenation as soon as one operand is (or converts to) a
    string, the sum of the operands' numeric values otherwise. *)
Definition js_add (a b : value) : value :=
  match a, b with
  | (VProtoMember | VString), _ | _, (VProtoMember | VString) => VString
  | _, _ => VNum (num_add (ToNumber a) (ToNumber b))
  end.

(** [acc + x] and [acc += x] for a number [acc] and a numeric field [x]. *)
Definition num_plus (acc : number) (x : jnum) : number :=
  num_add acc (ToNumber (val x)).

(** [a > b] where [b] is a numeric field: [b] is not a string, so the
    operands are compared as numbers, and a comparison with [NaN] is
    false. *)
Definition js_gt (a : value) (b : jnum) : bool :=
  num_lt (ToNumber (val b)) (ToNumber a).

(** *** parseFloat

    Strings are sequences of bytes (the UTF-8 form of the command-line
    argument).  [parseFloat] skips leading white space, takes the longest
    prefix that is a [StrDecimalLiteral] and returns the Number nearest to
    its mathematical value; [NaN] when there is no such prefix. *)

Definition is_digit (c : ascii) : bool :=
  let n := N_of_ascii c in ((48 <=? n) && (n <=? 57))%N.

Definition digit_value (c : ascii) : Z := Z.of_N (N_of_ascii c) - 48.

(** The longest prefix of decimal digits, and what follows it. *)
Fixpoint span_digits (l : list ascii) : list ascii * list ascii :=
  match l with
  | c :: r =>
      if is_digit c
      then let '(ds, rest) := span_digits r in (c :: ds, rest)
      else ([], l)
  | [] => ([], [])
  end.

Definition digits_value (ds : list ascii) : Z :=
  fold_left (fun acc c => 10 * acc + digit_value c) ds 0.

(** White space and line terminators of ECMAScript, as UTF-8. *)
Definition ws1 (a : ascii) : bool :=
  let n := N_of_ascii a in
  (((9 <=? n) && (n <=? 13)) || (n =? 32))%N.

Definition ws2 (a b : ascii) : bool :=
  ((N_of_ascii a =? 194) && (N_of_ascii b =? 160))%N.          (* U+00A0 *)

Definition ws3 (a b c : ascii) : bool :=
  let x := N_of_ascii a in
  let y := N_of_ascii b in
  let z := N_of_ascii c in
  (((x =? 225) && (y =? 154) && (z =? 128))                   (* U+1680 *)
   || ((x =? 226) && (y =? 128)
       && (((128 <=? z) && (z <=? 138))              (* U+2000 .. U+200A *)
           || (z =? 168) || (z =? 169) || (z =? 175)))
                                            (* U+2028, U+2029, U+202F *)
   || ((x =? 226) && (y =? 129) && (z =? 159))                (* U+205F *)
   || ((x =? 227) && (y =? 128) && (z =? 128))                (* U+3000 *)
   || ((x =? 239) && (y =? 187) && (z =? 191)))%N.            (* U+FEFF *)

Fixpoint trimStart (l : list ascii) : list ascii :=
  match l with
  | a :: r1 =>
      if ws1 a then trimStart r1
      else
        match r1 with
        | b :: r2 =>
            if ws2 a b then trimStart r2
            else
              match r2 with
              | c :: r3 => if ws3 a b c then trimStart r3 else l
              | [] => l
              end
        | [] => l
        end
  | [] => []
  end.

Fixpoint starts_with (p l : list ascii) : bool :=
  match p, l with
  | [], _ => true
  | a :: p', b :: l' => Ascii.eqb a b && starts_with p' l'
  | _ :: _, [] => false
  end.

(** [ExponentPart]: [e] or [E], an optional sign and at least one digit;
    anything else is not part of the literal and the exponent is 0. *)
Definition exponent_part (l : list ascii) : Z :=
  match l with
  | c :: r =>
      if Ascii.eqb c "e" || Ascii.eqb c "E" then
        let '(neg, r') :=
          match r with
          | s :: r' =>
              if Ascii.eqb s "-" then (true, r')
              else if Ascii.eqb s "+" then (false, r')
              else (false, r)
          | [] => (false, r)
          end in
        let '(ds, _) := span_digits r' in
        if neg then - digits_value ds else digits_value ds
      else 0
  | [] => 0
  end.

(** The Number nearest to [(-1)^neg * m * 10^e] (ties to even), for
    [0 <= m]. *)
Definition round_decimal (neg : bool) (m e : Z) : number :=
  if m =? 0 then S754_zero neg
  else if 0 <=? e then
    binary_normalize prec emax (cond_Zopp neg (m * 10 ^ e)) 0 false
  else
    let '(q, e', l) := SFdiv_core_binary prec emax m 0 (10 ^ (- e)) 0 in
    binary_round_aux prec emax neg q e' l.

Definition parseFloat (s : string) : number :=
  let t := trimStart (list_ascii_of_string s) in
  let '(neg, u) :=
    match t with
    | c :: r =>
        if Ascii.eqb c "-" then (true, r)
        else if Ascii.eqb c "+" then (false, r)
        else (false, t)
    | [] => (false, t)
    end in
  if starts_with (list_ascii_of_string "Infinity") u then S754_infinity neg
  else
    let '(ip, r1) := span_digits u in
    let '(fp, r2) :=
      match r1 with
      | c :: r =>
          if Ascii.eqb c "." then
            let '(fp, r2) := span_digits r in
            match ip, fp with
            | [], [] => ([], r1)          (* a lone "." is not a literal *)
            | _, _ => (fp, r2)
            end
          else ([], r1)
      | [] => ([], r1)
      end in
    match (ip ++ fp)%list with
    | [] => NaN
    | ds =>
        round_decimal neg (digits_value ds)
          (exponent_part r2 - Z.of_nat (List.length fp))
    end.

(** *** Ordinary objects

    An object created by [{}] or by [JSON.parse], used as a map from
    strings: its own properties, in the order in which they were created.
    The keys of an object are pairwise distinct. *)

Definition obj (A : Type) : Type := list (string * A).

Section Objects.
Context {A : Type}.

Fixpoint own_get (o : obj A) (k : string) : option A :=
  match o with
  | [] => None
  | (k', v) :: o' => if String.eqb k' k then Some v else own_get o' k
  end.

Definition has_own (o : obj A) (k : string) : bool :=
  match own_get o k with Some _ => true | None => false end.

(** Overwrite the value of an existing own property. *)
Fixpoint replace (o : obj A) (k : string) (v : A) : obj A :=
  match o with
  | [] => []
  | (k', v') :: o' =>
      if String.eqb k' k then (k', v) :: o' else (k', v') :: replace o' k v
  end.

(** [o[k] = v] for a primitive [v] (a number or a string).  An own
    property is overwritten where it stands.  Otherwise the assignment
    looks at [Object.prototype]: ["__proto__"] is an accessor there, whose
    setter ignores a value that is neither an object nor [null], so
    nothing is stored; every other key becomes a new own property. *)
Definition obj_set (o : obj A) (k : string) (v : A) : obj A :=
  if has_own o k then replace o k v
  else if String.eqb k "__proto__" then o
  else (o ++ [(k, v)])%list.
End Objects.

(** The property names of [Object.prototype]. *)
Definition proto_members : list string :=
  [ "constructor"; "__defineGetter__"; "__defineSetter__"; "hasOwnProperty";
    "__lookupGetter__"; "__lookupSetter__"; "isPrototypeOf";
    "propertyIsEnumerable"; "toString"; "valueOf"; "__proto__";
    "toLocaleString" ].

Definition is_proto_member (k : string) : bool :=
  existsb (String.eqb k) proto_members.

(** [o[k]]: the own property, else what [Object.prototype] has under that
    name, else [undefined]. *)
Definition js_get (o : obj value) (k : string) : value :=
  match own_get o k with
  | Some v => v
  | None => if is_proto_member k then VProtoMember else VUndefined
  end.

(** *** The order of the keys

    [for (k in o)], [Object.keys] and [JSON.stringify] visit the own
    properties of an ordinary object in the order of
    [OrdinaryOwnPropertyKeys]: first the keys that are array indices, by
    ascending numeric value, then the other keys by order of creation.
    ([Object.prototype] has no enumerable property, so [for ... in] stops
    there.) *)

Definition N_to_string (n : N) : string :=
  NilZero.string_of_uint (N.to_uint n).

Definition digits_to_N (l : list ascii) : option N :=
  if forallb is_digit l then Some (Z.to_N (digits_value l)) else None.

(** An array index is the canonical decimal form of an integer in
    [0, 2^32 - 2]. *)
Definition array_index (k : string) : option N :=
  match digits_to_N (list_ascii_of_string k) with
  | Some n =>
      if (String.eqb (N_to_string n) k && (n <? 4294967295)%N)%bool
      then Some n else None
  | None => None
  end.

Definition is_index (k : string) : bool :=
  match array_index k with Some _ => true | None => false end.

Definition index_of (k : string) : N :=
  match array_index k with Some n => n | None => 0%N end.

Section KeyOrder.
Context {A : Type}.

Fixpoint insert_by_index (e : string * A) (l : obj A) : obj A :=
  match l with
  | [] => [e]
  | e' :: l' =>
      if (index_of (fst e) <=? index_of (fst e'))%N then e :: l
      else e' :: insert_by_index e l'
  end.

Fixpoint sort_by_index (l : obj A) : obj A :=
  match l with
  | [] => []
  | e :: l' => insert_by_index e (sort_by_index l')
  end.

Definition index_entries (o : obj A) : obj A :=
  filter (fun e => is_index (fst e)) o.

Definition named_entries (o : obj A) : obj A :=
  filter (fun e => negb (is_index (fst e))) o.

Definition ownEntries (o : obj A) : obj A :=
  (sort_by_index (index_entries o) ++ named_entries o)%list.

Definition ownKeys (o : obj A) : list string := map fst (ownEntries o).

(** Ascending numeric value of the keys. *)
Definition by_index (a b : string * A) : Prop :=
  (index_of (fst a) <= index_of (fst b))%N.
End KeyOrder.

(** *** JSON

    What [JSON.parse (JSON.stringify v)] gives back.  A finite number comes
    back as it was (its shortest decimal form reads back to the same
    Number; [-0] is written as [0]); [NaN] and the infinities are written
    as [null]. *)

Definition json_num (a : jnum) : jnum :=
  match a with
  | JNum (S754_finite s m e) => JNum (S754_finite s m e)
  | JNum (S754_zero _) => JNum pzero
  | JNum (S754_infinity _) | JNum S754_nan => JNull
  | JNull => JNull
  end.

(** The same keys in the same order, with [h] applied to the values. *)
Definition map_values {A B : Type} (h : A -> B) (o : obj A) : obj B :=
  map (fun e => (fst e, h (snd e))) o.

(** An object is written key by key in the order of its keys and rebuilt in
    that order. *)
Definition json_obj (o : obj jnum) : obj jnum :=
  map_values json_num (ownEntries o).

End JS.

Import JS.

(* ================================================================= *)
(** ** The document *)

(** A transaction as the [add] command builds it.  [id] is a reading of
    [Date.now()]: an integer number of milliseconds, far below [2^53], so
    that it is an exact Number whose [toString()] is its plain decimal
    form. *)
Record Transaction : Type := {
  id : Z;
  type : string;
  amount : jnum;
  category : string;
  description : string;
  date : string
}.

Record Document : Type := {
  transactions : list Transaction;
  goals : obj jnum
}.

(** [t.id.toString()] *)
Definition idToString (n : Z) : string := NilZero.string_of_int (Z.to_int n).

(** *** data.json

    The file is absent, or holds the text [JSON.stringify(d, null, 2)] of
    the document [d] last saved; it is represented by that [d].  Reading it
    back parses the text, which is where the round trip through JSON
    shows. *)
Definition file : Type := option Document.

Definition json_transaction (t : Transaction) : Transaction :=
  {| id := id t; type := type t; amount := json_num (amount t);
     category := category t; description := description t; date := date t |}.

Definition json_document (d : Document) : Document :=
  {| transactions := map json_transaction (transactions d);
     goals := json_obj (goals d) |}.

Definition loadData (f : file) : Document :=
  match f with
  | None => {| transactions := []; goals := [] |}
  | Some d => json_document d
  end.

Definition saveData (data : Document) : file := Some data.

(* ================================================================= *)
(** ** Balance *)

(** The body of the loop, on the pair of running sums. *)
Definition balance_step (acc : number * number) (t : Transaction)
  : number * number :=
  let '(income, expense) := acc in
  if String.eqb (type t) "income"
  then (num_plus income (amount t), expense)
  else (income, num_plus expense (amount t)).

Definition calculateBalance (transactions : list Transaction) : number :=
  let '(income, expense) :=
    fold_left balance_step transactions (pzero, pzero) in
  num_sub income expense.

(* ================================================================= *)
(** ** Goal alerts *)

(** The two message templates of [checkAlerts], with the values that fill
    them. *)
Inductive Alert : Type :=
| TotalAlert (spent : number) (goal : jnum)
| CategoryAlert (cat : string) (spent : value) (goal : jnum).

(** The state of the first loop. *)
Record Tally : Type := {
  spentByCategory : obj value;
  totalExpense : number
}.

Definition tally_step (acc : Tally) (t : Transaction) : Tally :=
  if String.eqb (type t) "expense" then
    {| spentByCategory :=
         obj_set (spentByCategory acc) (category t)
           (js_add (js_or (js_get (spentByCategory acc) (category t))
                          (VNum pzero))
                   (val (amount t)));
       totalExpense := num_plus (totalExpense acc) (amount t) |}
  else acc.

Definition tally (transactions : list Transaction) : Tally :=
  fold_left tally_step transactions
    {| spentByCategory := []; totalExpense := pzero |}.

(** The body of the second loop for the own property [cat] of [goals], whose
    value [goals[cat]] is [goal]. *)
Definition alert_for (tl : Tally) (cat : string) (goal : jnum) : list Alert :=
  if String.eqb cat "total" then
    if js_gt (VNum (totalExpense tl)) goal
    then [TotalAlert (totalExpense tl) goal] else []
  else
    let spent := js_or (js_get (spentByCategory tl) cat) (VNum pzero) in
    if js_gt spent goal then [CategoryAlert cat spent goal] else [].

(** [for (const cat in goals)] visits the own properties of [goals] in the
    order of its keys. *)
Definition checkAlerts (transactions : list Transaction) (goals : obj jnum)
  : list Alert :=
  let tl := tally transactions in
  fold_left (fun alerts e => (alerts ++ alert_for tl (fst e) (snd e))%list)
    (ownEntries goals) [].

Definition alert_key (a : Alert) : string :=
  match a with TotalAlert _ _ => "total" | CategoryAlert cat _ _ => cat end.

Definition alert_spent (a : Alert) : value :=
  match a with TotalAlert s _ => VNum s | CategoryAlert _ s _ => s end.

Definition alert_goal (a : Alert) : jnum :=
  match a with TotalAlert _ g | CategoryAlert _ _ g => g end.

(* ================================================================= *)
(** ** Commands *)

(** What a command prints: one constructor per message of the program, with
    the values its template is filled with. *)
Inductive Message : Type :=
| InvalidType          (* Type must be "income" or "expense" *)
| InvalidAmount        (* Amount must be a positive number *)
| Added (type : string) (amount : number) (category : string)
| AlertLine (a : Alert)
| NotFound             (* No transaction found with that ID *)
| Deleted (id : string)
| GoalSet (category : string) (amount : number).

(** The effect of one run of the program: the file afterwards, the lines
    printed, and the exit status (1 after [process.exit(1)], 0 when the
    action returns). *)
Record Outcome : Type := {
  disk : file;
  console : list Message;
  exitCode : Z
}.

Definition lower (c : ascii) : ascii :=
  let n := N_of_ascii c in
  if ((65 <=? n) && (n <=? 90))%N then ascii_of_N (n + 32) else c.

(** [type.toLowerCase()].  Only the ASCII letters are mapped: no other
    character has a lower-case form made of the letters of "income" or
    "expense", so the test that follows is decided alike. *)
Fixpoint toLowerCase (s : string) : string :=
  match s with
  | EmptyString => EmptyString
  | String c s' => String (lower c) (toLowerCase s')
  end.

(** [add <type> <amount> <category> [description]], run when [Date.now()]
    reads [now] and the date is [today]. *)
Definition add_action (now : Z) (today : string) (f : file)
    (type amount category description : string) : Outcome :=
  let type := toLowerCase type in
  if (negb (String.eqb type "income") && negb (String.eqb type "expense"))%bool
  then {| disk := f; console := [InvalidType]; exitCode := 1 |}
  else
    let amount := parseFloat amount in
    if (isNaN amount || num_le amount pzero)%bool
    then {| disk := f; console := [InvalidAmount]; exitCode := 1 |}
    else
      let data := loadData f in
      let transaction :=
        {| id := now; type := type; amount := JNum amount;
           category := category; description := description;
           date := today |} in
      let data :=
        {| transactions := (transactions data ++ [transaction])%list;
           goals := goals data |} in
      let alerts := checkAlerts (transactions data) (goals data) in
      {| disk := saveData data;
         console := Added type amount category :: map AlertLine alerts;
         exitCode := 0 |}.

(** [delete <id>] *)
Definition delete_action (f : file) (id_arg : string) : Outcome :=
  let data := loadData f in
  let beforeCount := List.length (transactions data) in
  let kept :=
    filter (fun t => negb (String.eqb (idToString (id t)) id_arg))
      (transactions data) in
  if Nat.eqb (List.length kept) beforeCount
  then {| disk := f; console := [NotFound]; exitCode := 0 |}
  else
    {| disk := saveData {| transactions := kept; goals := goals data |};
       console := [Deleted id_arg];
       exitCode := 0 |}.

(** [setgoal <category> <amount>] *)
Definition setgoal_action (f : file) (category amount : string) : Outcome :=
  let amount := parseFloat amount in
  if (isNaN amount || num_le amount pzero)%bool
  then {| disk := f; console := [InvalidAmount]; exitCode := 0 |}
  else
    let data := loadData f in
    {| disk :=
         saveData {| transactions := transactions data;
                     goals := obj_set (goals data) category (JNum amount) |};
       console := [GoalSet category amount];
       exitCode := 0 |}.

(** A run of the program that can change the document. *)
Inductive Command : Type :=
| Add (now : Z) (today type amount category description : string)
| Delete (id_arg : string)
| SetGoal (category amount : string).

Definition exec (c : Command) (f : file) : Outcome :=
  match c with
  | Add now today ty am cat desc => add_action now today f ty am cat desc
  | Delete i => delete_action f i
  | SetGoal cat am => setgoal_action f cat am
  end.

(** The file after a sequence of runs. *)
Definition run (cs : list Command) (f : file) : file :=
  fold_left (fun f c => disk (exec c f)) cs f.

(* ================================================================= *)
(** ** Queries

    The commands that only read the file: [balance], [list] and [goals].
    They never call [saveData], so a run has no file afterwards to speak of:
    its effect is what it prints and its exit status. *)

(** What a query prints: one constructor per line of the program, with the
    values its template is filled with, before [toFixed(2)], [padEnd] and
    the conversion of a number to text lay them out. *)
Inductive Line : Type :=
| BalanceLine (balance : number)   (* Current balance: <balance> *)
| NoTransactions                   (* No transactions found. *)
| ListHeader                       (* ID | Type | Amount | ... | Date *)
| ListRule                         (* ------------------------------ *)
| ListRow (id type : string) (amount : number)
    (category description date : string)
| NoGoals                          (* No budget goals set. *)
| GoalsHeader                      (* Category | Goal *)
| GoalsRule                        (* ------------------------ *)
| GoalRow (cat : string) (val : jnum).

(** The lines printed and the exit status: 0 when the action returns, 1
    when it throws, which nothing catches. *)
Record Report : Type := {
  printed : list Line;
  status : Z
}.

(** [balance] *)
Definition balance_action (f : file) : Report :=
  let data := loadData f in
  let balance := calculateBalance (transactions data) in
  {| printed := [BalanceLine balance]; status := 0 |}.

(** The [forEach] of [list]: one row per transaction, in order.
    [t.amount.toFixed(2)] is a method call on the amount: a number has the
    method, [null] has none and the call throws a [TypeError] before the row
    is printed, which ends the loop.  The result is the rows printed and
    whether the loop came to its end. *)
Fixpoint list_rows (ts : list Transaction) : list Line * bool :=
  match ts with
  | [] => ([], true)
  | t :: ts' =>
      match amount t with
      | JNum x =>
          let '(rows, finished) := list_rows ts' in
          (ListRow (idToString (id t)) (type t) x (category t)
             (description t) (date t) :: rows,
           finished)
      | JNull => ([], false)
      end
  end.

(** [list] *)
Definition list_action (f : file) : Report :=
  let data := loadData f in
  if Nat.eqb (List.length (transactions data)) 0
  then {| printed := [NoTransactions]; status := 0 |}
  else
    let '(rows, finished) := list_rows (transactions data) in
    {| printed := ListHeader :: ListRule :: rows;
       status := if finished then 0 else 1 |}.

(** [goals].  [data.goals] is an object, hence truthy; [Object.keys] and
    [Object.entries] give its own properties in the order of its keys. *)
Definition goals_action (f : file) : Report :=
  let data := loadData f in
  if Nat.eqb (List.length (ownKeys (goals data))) 0
  then {| printed := [NoGoals]; status := 0 |}
  else
    {| printed :=
         GoalsHeader :: GoalsRule
         :: map (fun e => GoalRow (fst e) (snd e)) (ownEntries (goals data));
       status := 0 |}.

(* ================================================================= *)
(** ** Specification vocabulary

    The notions the specification states its properties with, written from
    its words and independently of the program's loops: the theorems below
    relate the program to them. *)

Definition is_income (t : Transaction) : bool := String.eqb (type t) "income".
Definition is_expense (t : Transaction) : bool := String.eqb (type t) "expense".

(** The sum of the amounts of a list of transactions, added from left to
    right starting from 0, as every loop of the program adds them. *)
Definition add_amount (acc : number) (t : Transaction) : number :=
  num_plus acc (amount t).

Definition sum_amounts (ts : list Transaction) : number :=
  fold_left add_amount ts pzero.

Definition income_total (ts : list Transaction) : number :=
  sum_amounts (filter is_income ts).

Definition expense_total (ts : list Transaction) : number :=
  sum_amounts (filter is_expense ts).

(** Every transaction is an income or an expense, as the data model has it. *)
Definition types_valid (ts : list Transaction) : Prop :=
  Forall (fun t => type t = "income" \/ type t = "expense") ts.

(** A transaction with the given type and amount, other fields arbitrary. *)
Definition entry (n : Z) (ty : string) (a : number) (cat : string)
  : Transaction :=
  {| id := n; type := ty; amount := JNum a; category := cat;
     description := ""; date := "2025-01-01" |}.

(** The expenses of one category, and the spend a goal key is measured
    against: all expenses for the key ["total"], the expenses of that
    category for any other key. *)
Definition in_category (k : string) (t : Transaction) : bool :=
  is_expense t && String.eqb (category t) k.

Definition category_total (ts : list Transaction) (k : string) : number :=
  sum_amounts (filter (in_category k) ts).

Definition spend (ts : list Transaction) (k : string) : number :=
  if String.eqb k "total" then expense_total ts else category_total ts k.

(** The goal [e] (a key and its value) is strictly exceeded. *)
Definition exceeded (ts : list Transaction) (e : string * jnum) : bool :=
  js_gt (VNum (spend ts (fst e))) (snd e).

(** The alert for the goal [e]: its key, the spend and the goal value. *)
Definition alert_of (ts : list Transaction) (e : string * jnum) : Alert :=
  if String.eqb (fst e) "total"
  then TotalAlert (spend ts (fst e)) (snd e)
  else CategoryAlert (fst e) (VNum (spend ts (fst e))) (snd e).

(** No amount is negative or [NaN] ([null] counts as 0). *)
Definition amounts_nonneg (ts : list Transaction) : Prop :=
  Forall (fun t => nonneg (ToNumber (val (amount t)))) ts.

(** No key of the object is the name of a member of [Object.prototype]. *)
Definition plain_keys {A : Type} (o : obj A) : Prop :=
  forall k, In k (map fst o) -> is_proto_member k = false.

(** The keys of [goals] in the order of creation, restricted to the exceeded
    goals: the order of the alerts if keys were visited as they were set. *)
Definition creation_order_alert_keys (ts : list Transaction)
    (goals : obj jnum) : list string :=
  map fst (filter (exceeded ts) goals).

(** What [spentByCategory] holds for the key [k] when the running sum of
    the category is [x]: nothing yet and [x] is 0, or the number [x]. *)
Definition cell_holds (sbc : obj value) (k : string) (x : number) : Prop :=
  nonneg x
  /\ (own_get sbc k = Some (VNum x) \/ (own_get sbc k = None /\ x = pzero)).

(** [amount > 0] *)
Definition is_positive (a : jnum) : Prop := js_gt (val a) (JNum pzero) = true.

Definition positive_finite (x : number) : Prop :=
  match x with S754_finite false _ _ => True | _ => False end.

Definition transaction_ok (t : Transaction) : Prop :=
  is_positive (amount t) /\ (type t = "income" \/ type t = "expense").

Definition goals_positive (g : obj jnum) : Prop :=
  Forall (fun e => is_positive (snd e)) g.

(** The invariant of the transactions of the file: each one has a positive
    finite amount and a valid type, and the ids increase strictly along the
    list. *)
Definition entry_ok (t : Transaction) : Prop :=
  (exists x, amount t = JNum x /\ positive_finite x)
  /\ (type t = "income" \/ type t = "expense").

Definition store_ok (ts : list Transaction) : Prop :=
  Forall entry_ok ts /\ StronglySorted Z.lt (map id ts).

(** Every id of [ts] is earlier than every clock reading of [ns]. *)
Definition before (ts : list Transaction) (ns : list Z) : Prop :=
  forall t n, In t ts -> In n ns -> id t < n.

(** The readings of the clock by the [add] commands of a sequence, in
    order. *)
Definition stamps (cs : list Command) : list Z :=
  flat_map (fun c => match c with Add now _ _ _ _ _ => [now] | _ => [] end) cs.

Definition clock_increasing (cs : list Command) : Prop :=
  StronglySorted Z.lt (stamps cs).

(** No [add] command of the sequence is given an amount that reads as
    [Infinity]. *)
Definition amounts_not_infinite (cs : list Command) : Prop :=
  Forall (fun c => match c with
                   | Add _ _ _ am _ _ => parseFloat am <> infinity
                   | _ => True
                   end) cs.

(** The amount argument is one that [add] and [setgoal] refuse: it reads as
    [NaN], or as a number that is [<= 0]. *)
Definition refused_amount (s : string) : Prop :=
  isNaN (parseFloat s) = true \/ num_le (parseFloat s) pzero = true.

(** The test of [delete] on one transaction. *)
Definition keeps (id_arg : string) (t : Transaction) : bool :=
  negb (String.eqb (idToString (id t)) id_arg).

(** What the file can hold as an amount after any runs of the program: a
    positive finite number, or [null] (an amount that read as
    [Infinity]). *)
Definition stored_amount (a : jnum) : Prop :=
  a = JNull \/ exists x, a = JNum x /\ positive_finite x.

Definition stored_transaction (t : Transaction) : Prop :=
  stored_amount (amount t) /\ (type t = "income" \/ type t = "expense").

Definition stored_goal (e : string * jnum) : Prop :=
  fst e <> "__proto__" /\ stored_amount (snd e).

(** The amount is a number, not [null]. *)
Definition has_number (t : Transaction) : Prop :=
  exists x, amount t = JNum x.

(** The row of [list] for a transaction whose amount is the number [x]. *)
Definition row_of (t : Transaction) (x : number) : Line :=
  ListRow (idToString (id t)) (type t) x (category t) (description t) (date t).

(** The rows of the transactions whose amount is a number, in order. *)
Definition rows (ts : list Transaction) : list Line :=
  flat_map (fun t => match amount t with
                     | JNum x => [row_of t x]
                     | JNull => []
                     end) ts.

(** [picked R xs ys]: the list [ys] is made, in order, of one element
    related by [R] to some of the elements of [xs], each used at most
    once. *)
Inductive picked {X Y : Type} (R : X -> Y -> Prop)
  : list X -> list Y -> Prop :=
| picked_nil : picked R [] []
| picked_skip x xs ys : picked R xs ys -> picked R (x :: xs) ys
| picked_take x xs y ys :
    R x y -> picked R xs ys -> picked R (x :: xs) (y :: ys).

(** Case analysis on a number: the zeros, the infinities, [NaN] and the
    finite numbers, each with its sign. *)
Ltac number_cases x :=
  destruct x as [[|] | [|] | | [|] ? ?]; cbn.

(* ================================================================= *)
(** ** The embedding at work *)

Example parseFloat_examples :
  parseFloat "1000" = of_Z 1000
  /\ parseFloat "1e3" = of_Z 1000
  /\ parseFloat "  +0.5" = S754_finite false 4503599627370496 (-53)
  /\ parseFloat "0.1" = S754_finite false 7205759403792794 (-56)
  /\ parseFloat "-5" = SFopp (of_Z 5)
  /\ parseFloat "12abc" = of_Z 12
  /\ parseFloat "1,000" = of_Z 1
  /\ parseFloat "abc" = NaN
  /\ parseFloat "" = NaN
  /\ parseFloat "." = NaN
  /\ parseFloat "-0" = S754_zero true
  /\ parseFloat "Infinity" = infinity
  /\ parseFloat "1e400" = infinity
  /\ parseFloat "infinity" = NaN.
Proof. repeat split; vm_compute; reflexivity. Qed.

Example ownKeys_example :
  ownKeys [("rent", 1); ("10", 2); ("food", 3); ("9", 4); ("007", 5)]
  = ["9"; "10"; "rent"; "food"; "007"].
Proof. vm_compute. reflexivity. Qed.

Example obj_set_examples :
  obj_set [("rent", 1)] "food" 2 = [("rent", 1); ("food", 2)]
  /\ obj_set [("rent", 1); ("food", 2)] "rent" 3 = [("rent", 3); ("food", 2)]
  /\ obj_set [("rent", 1)] "__proto__" 2 = [("rent", 1)]
  /\ js_get [("rent", VNum pzero)] "food" = VUndefined
  /\ js_get [("rent", VNum pzero)] "toString" = VProtoMember.
Proof. repeat split; reflexivity. Qed.

Example idToString_example :
  idToString 1723000000000 = "1723000000000" /\ idToString 0 = "0".
Proof. split; vm_compute; reflexivity. Qed.

Example toLowerCase_example : toLowerCase "ExPENSE" = "expense".
Proof. reflexivity. Qed.

(* ================================================================= *)
(** ** Balance: proofs *)

(** The loop of [calculateBalance] keeps two independent running sums. *)
Lemma balance_loop_split (ts : list Transaction) (i e : number) :
  fold_left balance_step ts (i, e)
  = (fold_left add_amount (filter is_income ts) i,
     fold_left add_amount (filter (fun t => negb (is_income t)) ts) e).
Proof.
  revert i e.
  induction ts as [| t ts IH]; intros i e; [reflexivity |].
  cbn [fold_left filter].
  assert (Hstep : balance_step (i, e) t
                  = if is_income t then (add_amount i t, e)
                    else (i, add_amount e t)) by reflexivity.
  rewrite Hstep.
  destruct (is_income t); cbn [negb fold_left]; apply IH.
Qed.

Lemma calculateBalance_unfold (ts : list Transaction) :
  calculateBalance ts
  = num_sub (income_total ts)
      (sum_amounts (filter (fun t => negb (is_income t)) ts)).
Proof.
  unfold calculateBalance, income_total, sum_amounts.
  rewrite balance_loop_split. reflexivity.
Qed.

(** Among incomes and expenses, "not an income" is "an expense". *)
Lemma not_income_is_expense (ts : list Transaction) :
  types_valid ts ->
  filter (fun t => negb (is_income t)) ts = filter is_expense ts.
Proof.
  induction 1 as [| t ts Ht _ IH]; [reflexivity |].
  cbn [filter]. rewrite IH. unfold is_income, is_expense.
  destruct Ht as [-> | ->]; reflexivity.
Qed.

(** C2.  On a list of incomes and expenses, [calculateBalance] returns the
    sum of the income amounts minus the sum of the expense amounts; it
    returns 0 on the empty list, and 800 on one income of 1000 together with
    one expense of 200, whatever their order and their other fields. *)
Theorem calculateBalance_income_minus_expense :
  (forall ts, types_valid ts ->
     calculateBalance ts = num_sub (income_total ts) (expense_total ts))
  /\ calculateBalance [] = pzero
  /\ (forall t1 t2,
        type t1 = "income" -> amount t1 = JNum (of_Z 1000) ->
        type t2 = "expense" -> amount t2 = JNum (of_Z 200) ->
        calculateBalance [t1; t2] = of_Z 800
        /\ calculateBalance [t2; t1] = of_Z 800).
Proof.
  split; [| split].
  - intros ts Hts. rewrite calculateBalance_unfold.
    unfold expense_total. rewrite (not_income_is_expense ts Hts). reflexivity.
  - reflexivity.
  - intros t1 t2 Hty1 Ha1 Hty2 Ha2.
    unfold calculateBalance, balance_step; cbn [fold_left].
    rewrite Hty1, Hty2, Ha1, Ha2. split; vm_compute; reflexivity.
Qed.

Lemma calculateBalance_income_minus_expense_witness :
  let ts := [entry 1 "income" (of_Z 1000) "salary";
             entry 2 "expense" (of_Z 200) "groceries"] in
  types_valid ts
  /\ calculateBalance ts = num_sub (income_total ts) (expense_total ts).
Proof.
  cbv zeta.
  assert (Hts : types_valid [entry 1 "income" (of_Z 1000) "salary";
                             entry 2 "expense" (of_Z 200) "groceries"]).
  { constructor; [left; reflexivity |].
    constructor; [right; reflexivity | constructor]. }
  split; [exact Hts |].
  apply (proj1 calculateBalance_income_minus_expense). exact Hts.
Defined.

(** C9.  [calculateBalance] adds the transactions whose type is exactly
    ["income"] and subtracts every other one, whatever its type says. *)
Theorem calculateBalance_subtracts_non_income :
  (forall ts,
     calculateBalance ts
     = num_sub (sum_amounts (filter is_income ts))
         (sum_amounts (filter (fun t => negb (is_income t)) ts)))
  /\ (forall n ty a cat,
        ty <> "income" ->
        calculateBalance [entry n ty a cat] = num_sub pzero (num_add pzero a))
  /\ calculateBalance [entry 1 "income" (of_Z 1000) "salary";
                       entry 2 "Income" (of_Z 200) "bonus";
                       entry 3 "refund" (of_Z 300) "shop"]
     = of_Z 500.
Proof.
  split; [| split].
  - exact calculateBalance_unfold.
  - intros n ty a cat Hty. unfold calculateBalance, balance_step.
    cbn [fold_left type entry]. apply String.eqb_neq in Hty. rewrite Hty.
    reflexivity.
  - vm_compute. reflexivity.
Qed.

(* ================================================================= *)
(** ** Lists: proofs *)

Lemma filter_all {X : Type} (p : X -> bool) (l : list X) :
  (forall x, In x l -> p x = true) -> filter p l = l.
Proof.
  induction l as [| x l IH]; intros H; [reflexivity |].
  cbn. rewrite (H x (or_introl eq_refl)), IH; [reflexivity |].
  intros y Hy. apply H. right. exact Hy.
Qed.

Lemma filter_same_length {X : Type} (p : X -> bool) (l : list X) :
  List.length (filter p l) = List.length l -> filter p l = l.
Proof.
  induction l as [| x l IH]; [reflexivity |].
  cbn. destruct (p x); cbn; intros H.
  - f_equal. apply IH. lia.
  - pose proof (filter_length_le p l). lia.
Qed.

Lemma filter_none {X : Type} (p : X -> bool) (l : list X) :
  (forall x, In x l -> p x = false) -> filter p l = [].
Proof.
  induction l as [| x l IH]; intros H; [reflexivity |].
  cbn. rewrite (H x (or_introl eq_refl)). apply IH.
  intros y Hy. apply H. right. exact Hy.
Qed.

(* ================================================================= *)
(** ** Numbers: proofs *)

Lemma positive_finite_positive (x : number) :
  positive_finite x -> is_positive (JNum x).
Proof. number_cases x; intros H; try contradiction; reflexivity. Qed.

Lemma positive_finite_json (x : number) :
  positive_finite x -> json_num (JNum x) = JNum x.
Proof. number_cases x; intros H; try contradiction; reflexivity. Qed.

Lemma json_num_idempotent (a : jnum) : json_num (json_num a) = json_num a.
Proof. destruct a as [[s | s | | s m e] |]; reflexivity. Qed.

Lemma shr_1_nonneg (mrs : shr_record) :
  0 <= shr_m mrs -> 0 <= shr_m (shr_1 mrs).
Proof.
  destruct mrs as [m r s]. cbn [shr_m].
  destruct m as [| p | p]; [| destruct p | lia]; cbn; lia.
Qed.

Lemma iter_pos_preserves {A : Type} (P : A -> Prop) (f : A -> A) :
  (forall x, P x -> P (f x)) -> forall n x, P x -> P (iter_pos f n x).
Proof.
  intros Hf. induction n as [n IH | n IH |]; intros x Hx; cbn; auto.
Qed.

Lemma shr_nonneg (mrs : shr_record) (e n : Z) :
  0 <= shr_m mrs -> 0 <= shr_m (fst (shr mrs e n)).
Proof.
  intros H. unfold shr. destruct n; cbn [fst]; auto.
  apply (iter_pos_preserves (fun mrs => 0 <= shr_m mrs));
    [exact shr_1_nonneg | exact H].
Qed.

Lemma shr_fexp_nonneg (m e : Z) (l : location) :
  0 <= m -> 0 <= shr_m (fst (shr_fexp prec emax m e l)).
Proof.
  intros H. unfold shr_fexp. apply shr_nonneg.
  destruct l as [| []]; exact H.
Qed.

Lemma round_nearest_even_nonneg (m : Z) (l : location) :
  0 <= m -> 0 <= round_nearest_even m l.
Proof.
  intros H. destruct l as [| []]; cbn; try lia. destruct (Z.even m); lia.
Qed.

(** Rounding a non-negative quantity never yields [NaN] or a negative
    number. *)
Lemma binary_round_aux_nonneg (m e : Z) (l : location) :
  0 <= m -> nonneg (binary_round_aux prec emax false m e l).
Proof.
  intros H. unfold binary_round_aux.
  pose proof (shr_fexp_nonneg m e l H) as H1.
  destruct (shr_fexp prec emax m e l) as [mrs' e'] eqn:E1. cbn [fst] in H1.
  pose proof (round_nearest_even_nonneg (shr_m mrs')
                (loc_of_shr_record mrs') H1) as H2.
  pose proof (shr_fexp_nonneg _ e' loc_Exact H2) as H3.
  destruct (shr_fexp prec emax (round_nearest_even _ _) e' loc_Exact)
    as [mrs'' e''] eqn:E2.
  cbn [fst] in H3.
  destruct (shr_m mrs'') as [| p | p]; [reflexivity | | lia].
  destruct (e'' <=? emax - prec); reflexivity.
Qed.

Lemma binary_round_nonneg (m : positive) (e : Z) :
  nonneg (binary_round prec emax false m e).
Proof.
  unfold binary_round.
  destruct (shl_align m e _) as [mz ez].
  apply binary_round_aux_nonneg. lia.
Qed.

(** The sum of two numbers that are neither negative nor [NaN] is neither
    negative nor [NaN]. *)
Lemma num_add_nonneg (x y : number) :
  nonneg x -> nonneg y -> nonneg (num_add x y).
Proof.
  destruct x as [sx | sx | | sx mx ex]; destruct y as [sy | sy | | sy my ey];
    cbn [nonneg]; intros Hx Hy; try contradiction; subst;
    try reflexivity.
  unfold num_add, SFadd. cbn [cond_Zopp].
  match goal with
  | |- nonneg (binary_normalize _ _ (Z.pos ?a + Z.pos ?b) _ _) =>
      change (Z.pos a + Z.pos b) with (Z.pos (a + b))
  end.
  apply binary_round_nonneg.
Qed.

Lemma num_plus_nonneg (x : number) (a : jnum) :
  nonneg x -> nonneg (ToNumber (val a)) -> nonneg (num_plus x a).
Proof. apply num_add_nonneg. Qed.

(** On such numbers [x || 0] is [x]. *)
Lemma js_or_zero_nonneg (x : number) :
  nonneg x -> js_or (VNum x) (VNum pzero) = VNum x.
Proof. number_cases x; intros H; try discriminate H; try contradiction;
  reflexivity. Qed.

(** Adding a numeric field to a number is a numeric addition. *)
Lemma js_add_num (x : number) (a : jnum) :
  js_add (VNum x) (val a) = VNum (num_plus x a).
Proof. destruct a; reflexivity. Qed.

(* ================================================================= *)
(** ** Objects: proofs *)

Section ObjectFacts.

Context {A : Type}.
Implicit Types (o : obj A) (k : string) (v : A).

Lemma own_get_app o o' k :
  own_get (o ++ o') k
  = match own_get o k with Some v => Some v | None => own_get o' k end.
Proof.
  induction o as [| [k' v'] o IH]; [reflexivity |].
  cbn. destruct (String.eqb k' k); [reflexivity | exact IH].
Qed.

Lemma own_get_replace_eq o k v :
  has_own o k = true -> own_get (replace o k v) k = Some v.
Proof.
  unfold has_own. induction o as [| [k' v'] o IH]; cbn; [discriminate |].
  destruct (String.eqb k' k) eqn:E; cbn; rewrite E; [reflexivity | exact IH].
Qed.

Lemma own_get_replace_ne o k k' v :
  k' <> k -> own_get (replace o k v) k' = own_get o k'.
Proof.
  intros Hne. induction o as [| [k0 v0] o IH]; [reflexivity |].
  cbn. destruct (String.eqb k0 k) eqn:E; cbn.
  - apply String.eqb_eq in E; subst k0.
    assert (E : String.eqb k k' = false) by (apply String.eqb_neq; congruence).
    rewrite E. reflexivity.
  - rewrite IH. reflexivity.
Qed.

(** After [o[k] = v], [o] has the own property [k] with value [v], unless
    [k] is ["__proto__"] and was not an own property. *)
Lemma own_get_set_eq o k v :
  k <> "__proto__" -> own_get (obj_set o k v) k = Some v.
Proof.
  intros Hk. unfold obj_set. destruct (has_own o k) eqn:E.
  - apply own_get_replace_eq, E.
  - apply String.eqb_neq in Hk. rewrite Hk. rewrite own_get_app.
    unfold has_own in E. destruct (own_get o k); [discriminate |].
    cbn. rewrite String.eqb_refl. reflexivity.
Qed.

(** [o[k] = v] leaves every other property as it was. *)
Lemma own_get_set_ne o k k' v :
  k' <> k -> own_get (obj_set o k v) k' = own_get o k'.
Proof.
  intros Hne. unfold obj_set. destruct (has_own o k).
  - apply own_get_replace_ne, Hne.
  - destruct (String.eqb k "__proto__"); [reflexivity |].
    rewrite own_get_app. destruct (own_get o k'); [reflexivity |].
    cbn. assert (E : String.eqb k k' = false)
      by (apply String.eqb_neq; congruence).
    rewrite E. reflexivity.
Qed.

Lemma own_get_filter (p : string -> bool) o k :
  own_get (filter (fun e => p (fst e)) o) k
  = if p k then own_get o k else None.
Proof.
  induction o as [| [k' v'] o IH]; cbn; [destruct (p k); reflexivity |].
  destruct (String.eqb k' k) eqn:E.
  - apply String.eqb_eq in E; subst k'.
    destruct (p k); cbn; [rewrite String.eqb_refl; reflexivity | exact IH].
  - destruct (p k'); cbn; [rewrite E |]; exact IH.
Qed.

(** Sorting the array-index keys is stable on equal keys: it does not change
    which value a key maps to. *)
Lemma own_get_insert_by_index (e : string * A) o k :
  own_get (insert_by_index e o) k
  = if String.eqb (fst e) k then Some (snd e) else own_get o k.
Proof.
  destruct e as [ke ve]. cbn [fst snd].
  induction o as [| [k' v'] o IH]; [reflexivity |].
  cbn [insert_by_index fst].
  destruct (index_of ke <=? index_of k')%N eqn:Hle; [reflexivity |].
  cbn [own_get]. rewrite IH.
  destruct (String.eqb k' k) eqn:E1; [| reflexivity].
  destruct (String.eqb ke k) eqn:E2; [| reflexivity].
  apply String.eqb_eq in E1, E2. subst.
  rewrite N.leb_refl in Hle. discriminate.
Qed.

Lemma own_get_sort_by_index o k : own_get (sort_by_index o) k = own_get o k.
Proof.
  induction o as [| [k' v'] o IH]; [reflexivity |].
  cbn [sort_by_index]. rewrite own_get_insert_by_index, IH. reflexivity.
Qed.

(** The order of the keys does not change the value of any property. *)
Lemma own_get_ownEntries o k : own_get (ownEntries o) k = own_get o k.
Proof.
  unfold ownEntries, index_entries, named_entries.
  rewrite own_get_app, own_get_sort_by_index.
  rewrite (own_get_filter is_index).
  rewrite (own_get_filter (fun k => negb (is_index k))).
  destruct (is_index k); cbn; destruct (own_get o k); reflexivity.
Qed.

Lemma own_get_map_values {B : Type} (f : A -> B) o k :
  own_get (map_values f o) k = option_map f (own_get o k).
Proof.
  unfold map_values. induction o as [| [k' v'] o IH]; [reflexivity |].
  cbn. destruct (String.eqb k' k); [reflexivity | exact IH].
Qed.

Lemma insert_by_index_perm (e : string * A) o :
  Permutation (insert_by_index e o) (e :: o).
Proof.
  induction o as [| e' o IH]; [reflexivity |].
  cbn. destruct (index_of (fst e) <=? index_of (fst e'))%N; [reflexivity |].
  rewrite IH. apply perm_swap.
Qed.

Lemma sort_by_index_perm o : Permutation (sort_by_index o) o.
Proof.
  induction o as [| e o IH]; [reflexivity |].
  cbn. rewrite insert_by_index_perm. constructor. exact IH.
Qed.

Lemma partition_perm (p : string * A -> bool) o :
  Permutation (filter p o ++ filter (fun e => negb (p e)) o) o.
Proof.
  induction o as [| e o IH]; [reflexivity |].
  cbn. destruct (p e); cbn.
  - constructor. exact IH.
  - symmetry. apply Permutation_cons_app. symmetry. exact IH.
Qed.

(** The keys in order are the own properties, each once. *)
Lemma ownEntries_perm o : Permutation (ownEntries o) o.
Proof.
  unfold ownEntries, index_entries, named_entries.
  rewrite sort_by_index_perm. apply partition_perm.
Qed.

Lemma insert_by_index_sorted (e : string * A) o :
  Sorted by_index o -> Sorted by_index (insert_by_index e o).
Proof.
  induction 1 as [| e' o Hs IH Hhd]; cbn.
  - repeat constructor.
  - destruct (index_of (fst e) <=? index_of (fst e'))%N eqn:Hle.
    + apply N.leb_le in Hle. repeat constructor; assumption.
    + apply N.leb_gt in Hle. constructor; [exact IH |].
      destruct Hhd as [| e'' o Hr]; cbn.
      * constructor. unfold by_index. lia.
      * destruct (index_of (fst e) <=? index_of (fst e''))%N;
          constructor; [unfold by_index; lia | exact Hr].
Qed.

Lemma sort_by_index_sorted o : Sorted by_index (sort_by_index o).
Proof.
  induction o as [| e o IH]; [constructor |].
  cbn. apply insert_by_index_sorted, IH.
Qed.

End ObjectFacts.

Section RoundTrip.

Context {A : Type}.
Implicit Types (o : obj A) (e : string * A).

Lemma insert_by_index_head e o :
  HdRel by_index e o -> insert_by_index e o = e :: o.
Proof.
  intros [| e' o' He]; [reflexivity |].
  cbn. unfold by_index in He. apply N.leb_le in He. rewrite He. reflexivity.
Qed.

(** Sorting keys that are in order changes nothing. *)
Lemma sort_by_index_sorted_id o : Sorted by_index o -> sort_by_index o = o.
Proof.
  induction 1 as [| e o Hs IH Hhd]; [reflexivity |].
  cbn. rewrite IH. apply insert_by_index_head, Hhd.
Qed.

Lemma sorted_index_entries_are_indices o e :
  In e (sort_by_index (index_entries o)) -> is_index (fst e) = true.
Proof.
  intros H. apply (Permutation_in _ (sort_by_index_perm _)) in H.
  apply filter_In in H. apply H.
Qed.

Lemma named_entries_are_named o e :
  In e (named_entries o) -> is_index (fst e) = false.
Proof.
  intros H. apply filter_In in H as [_ H]. apply negb_true_iff, H.
Qed.

(** The keys of an object listed in the order of its keys are in that
    order. *)
Lemma ownEntries_idempotent o : ownEntries (ownEntries o) = ownEntries o.
Proof.
  unfold ownEntries at 1. unfold index_entries, named_entries.
  unfold ownEntries. rewrite !filter_app.
  rewrite (filter_all _ (sort_by_index (index_entries o)))
    by (intros e; apply sorted_index_entries_are_indices).
  rewrite (filter_none (fun e => is_index (fst e)) (named_entries o))
    by (intros e; apply named_entries_are_named).
  rewrite (filter_none _ (sort_by_index (index_entries o)))
    by (intros e He; rewrite (sorted_index_entries_are_indices o e He);
        reflexivity).
  rewrite (filter_all _ (named_entries o))
    by (intros e He; rewrite (named_entries_are_named o e He); reflexivity).
  rewrite app_nil_r. cbn [app].
  rewrite sort_by_index_sorted_id by apply sort_by_index_sorted.
  reflexivity.
Qed.

End RoundTrip.

Section MapValues.

Context {A B : Type} (h : A -> B).

Lemma insert_by_index_map_values (e : string * A) (o : obj A) :
  insert_by_index (fst e, h (snd e)) (map_values h o)
  = map_values h (insert_by_index e o).
Proof.
  unfold map_values. induction o as [| e' o IH]; [reflexivity |].
  cbn. destruct (index_of (fst e) <=? index_of (fst e'))%N; [reflexivity |].
  cbn. f_equal. exact IH.
Qed.

Lemma sort_by_index_map_values (o : obj A) :
  sort_by_index (map_values h o) = map_values h (sort_by_index o).
Proof.
  induction o as [| e o IH]; [reflexivity |].
  change (sort_by_index (map_values h (e :: o)))
    with (insert_by_index (fst e, h (snd e)) (sort_by_index (map_values h o))).
  rewrite IH. apply insert_by_index_map_values.
Qed.

Lemma filter_map_values (q : string * B -> bool) (q' : string * A -> bool)
    (o : obj A) :
  (forall e, q (fst e, h (snd e)) = q' e) ->
  filter q (map_values h o) = map_values h (filter q' o).
Proof.
  intros Hq. unfold map_values. induction o as [| e o IH]; [reflexivity |].
  cbn [map filter]. rewrite Hq.
  destruct (q' e); cbn [map]; rewrite IH; reflexivity.
Qed.

(** Changing the values of an object does not change the order of its
    keys. *)
Lemma ownEntries_map_values (o : obj A) :
  ownEntries (map_values h o) = map_values h (ownEntries o).
Proof.
  unfold ownEntries, index_entries, named_entries.
  rewrite (filter_map_values _ (fun e => is_index (fst e)))
    by reflexivity.
  rewrite (filter_map_values _ (fun e => negb (is_index (fst e))))
    by reflexivity.
  rewrite sort_by_index_map_values. unfold map_values. rewrite map_app.
  reflexivity.
Qed.

End MapValues.

(* ================================================================= *)
(** ** Goal alerts: proofs *)

Lemma tally_step_total (ts : list Transaction) (acc : Tally) :
  totalExpense (fold_left tally_step ts acc)
  = fold_left add_amount (filter is_expense ts) (totalExpense acc).
Proof.
  revert acc. induction ts as [| t ts IH]; intros acc; [reflexivity |].
  cbn [fold_left filter]. rewrite IH. unfold tally_step, is_expense.
  destruct (String.eqb (type t) "expense"); reflexivity.
Qed.

(** [totalExpense] is the sum of the amounts of all expenses. *)
Lemma tally_total (ts : list Transaction) :
  totalExpense (tally ts) = expense_total ts.
Proof. unfold tally. rewrite tally_step_total. reflexivity. Qed.

Lemma cell_read (sbc : obj value) (k : string) (x : number) :
  is_proto_member k = false -> cell_holds sbc k x ->
  js_or (js_get sbc k) (VNum pzero) = VNum x.
Proof.
  intros Hk [Hx [Hget | [Hget ->]]]; unfold js_get; rewrite Hget.
  - apply js_or_zero_nonneg, Hx.
  - rewrite Hk. reflexivity.
Qed.

Lemma proto_member_not_plain (k : string) :
  is_proto_member k = false -> k <> "__proto__".
Proof. intros H ->. discriminate H. Qed.

Lemma tally_step_cell (t : Transaction) (acc : Tally) (k : string)
    (x : number) :
  is_proto_member k = false ->
  nonneg (ToNumber (val (amount t))) ->
  cell_holds (spentByCategory acc) k x ->
  cell_holds (spentByCategory (tally_step acc t)) k
    (if in_category k t then add_amount x t else x).
Proof.
  intros Hk Ha Hcell. unfold tally_step, in_category, is_expense.
  destruct (String.eqb (type t) "expense"); cbn [andb]; [| exact Hcell].
  cbn [spentByCategory].
  destruct (String.eqb (category t) k) eqn:E.
  - apply String.eqb_eq in E. rewrite E.
    rewrite (cell_read _ _ _ Hk Hcell), js_add_num.
    split.
    + apply num_plus_nonneg; [apply Hcell | exact Ha].
    + left. apply own_get_set_eq, proto_member_not_plain, Hk.
  - apply String.eqb_neq in E.
    destruct Hcell as [Hx Hget]. split; [exact Hx |].
    rewrite own_get_set_ne by congruence. exact Hget.
Qed.

Lemma tally_fold_cell (ts : list Transaction) (acc : Tally) (k : string)
    (x : number) :
  is_proto_member k = false ->
  amounts_nonneg ts ->
  cell_holds (spentByCategory acc) k x ->
  cell_holds (spentByCategory (fold_left tally_step ts acc)) k
    (fold_left add_amount (filter (in_category k) ts) x).
Proof.
  intros Hk Hts. revert acc x.
  induction Hts as [| t ts Ht _ IH]; intros acc x Hcell; [exact Hcell |].
  cbn [fold_left filter].
  pose proof (tally_step_cell t acc k x Hk Ht Hcell) as Hstep.
  destruct (in_category k t); cbn [fold_left]; apply IH; exact Hstep.
Qed.

(** For a key that [Object.prototype] does not know, [spentByCategory[k] || 0]
    is the sum of the amounts of the expenses of category [k]. *)
Lemma tally_category (ts : list Transaction) (k : string) :
  is_proto_member k = false ->
  amounts_nonneg ts ->
  js_or (js_get (spentByCategory (tally ts)) k) (VNum pzero)
  = VNum (category_total ts k).
Proof.
  intros Hk Hts. apply cell_read; [exact Hk |].
  unfold tally, category_total, sum_amounts.
  apply tally_fold_cell; [exact Hk | exact Hts |].
  split; [reflexivity | right; split; reflexivity].
Qed.

Lemma alert_for_spec (ts : list Transaction) (e : string * jnum) :
  is_proto_member (fst e) = false ->
  amounts_nonneg ts ->
  alert_for (tally ts) (fst e) (snd e)
  = if exceeded ts e then [alert_of ts e] else [].
Proof.
  intros Hk Hts. unfold alert_for, exceeded, alert_of, spend.
  destruct (String.eqb (fst e) "total").
  - rewrite tally_total. reflexivity.
  - rewrite (tally_category ts (fst e) Hk Hts). reflexivity.
Qed.

Lemma alerts_loop (tl : Tally) (es : obj jnum) (acc : list Alert) :
  fold_left (fun alerts e => alerts ++ alert_for tl (fst e) (snd e)) es acc
  = acc ++ flat_map (fun e => alert_for tl (fst e) (snd e)) es.
Proof.
  revert acc. induction es as [| e es IH]; intros acc; cbn.
  - rewrite app_nil_r. reflexivity.
  - rewrite IH, app_assoc. reflexivity.
Qed.

Lemma flat_map_filter_map {X Y : Type} (p : X -> bool) (f : X -> Y)
    (g : X -> list Y) (l : list X) :
  (forall x, In x l -> g x = if p x then [f x] else []) ->
  flat_map g l = map f (filter p l).
Proof.
  induction l as [| x l IH]; intros H; [reflexivity |].
  cbn. rewrite (H x (or_introl eq_refl)), IH by (intros; apply H; right; auto).
  destruct (p x); reflexivity.
Qed.

Lemma plain_keys_ownEntries (goals : obj jnum) (e : string * jnum) :
  plain_keys goals -> In e (ownEntries goals) ->
  is_proto_member (fst e) = false.
Proof.
  intros Hp He. apply Hp.
  apply (Permutation_in _ (ownEntries_perm goals)) in He.
  apply in_map, He.
Qed.

(** The alerts are those of the exceeded goals, in the order of the keys. *)
Lemma checkAlerts_spec (ts : list Transaction) (goals : obj jnum) :
  amounts_nonneg ts -> plain_keys goals ->
  checkAlerts ts goals
  = map (alert_of ts) (filter (exceeded ts) (ownEntries goals)).
Proof.
  intros Hts Hp. unfold checkAlerts. rewrite alerts_loop. cbn [app].
  apply flat_map_filter_map. intros e He.
  apply alert_for_spec; [| exact Hts].
  apply (plain_keys_ownEntries goals e Hp He).
Qed.

Lemma alert_of_key (ts : list Transaction) (e : string * jnum) :
  alert_key (alert_of ts e) = fst e.
Proof.
  unfold alert_of. destruct (String.eqb (fst e) "total") eqn:E; cbn.
  - apply String.eqb_eq in E. congruence.
  - reflexivity.
Qed.

Lemma map_fst_filter {A : Type} (p : string -> bool) (o : obj A) :
  map fst (filter (fun e => p (fst e)) o) = filter p (map fst o).
Proof.
  induction o as [| e o IH]; [reflexivity |].
  cbn. destruct (p (fst e)); cbn; rewrite IH; reflexivity.
Qed.

Lemma Sorted_map_fst {A : Type} (o : obj A) :
  Sorted by_index o ->
  Sorted (fun a b => (index_of a <= index_of b)%N) (map fst o).
Proof.
  induction 1 as [| e o Hs IH Hhd]; cbn; constructor; [exact IH |].
  destruct Hhd; cbn; constructor. assumption.
Qed.

(** The order of the keys: the array indices by ascending value, then the
    other keys as they were created. *)
Lemma ownKeys_order {A : Type} (o : obj A) :
  exists idx,
    ownKeys o = idx ++ filter (fun k => negb (is_index k)) (map fst o)
    /\ Permutation idx (filter is_index (map fst o))
    /\ Sorted (fun a b => (index_of a <= index_of b)%N) idx.
Proof.
  exists (map fst (sort_by_index (index_entries o))). split; [| split].
  - unfold ownKeys, ownEntries, named_entries. rewrite map_app.
    rewrite (map_fst_filter (fun k => negb (is_index k))). reflexivity.
  - rewrite <- (map_fst_filter is_index). apply Permutation_map.
    apply sort_by_index_perm.
  - apply Sorted_map_fst, sort_by_index_sorted.
Qed.

(** For a key that names a member of [Object.prototype], [spentByCategory]
    never holds a number: nothing, or a string. *)
Lemma tally_step_inherited (t : Transaction) (acc : Tally) (k : string) :
  is_proto_member k = true ->
  own_get (spentByCategory acc) k = None
  \/ own_get (spentByCategory acc) k = Some VString ->
  own_get (spentByCategory (tally_step acc t)) k = None
  \/ own_get (spentByCategory (tally_step acc t)) k = Some VString.
Proof.
  intros Hk Hcell. unfold tally_step.
  destruct (String.eqb (type t) "expense"); [| exact Hcell].
  cbn [spentByCategory].
  destruct (String.eqb (category t) k) eqn:E.
  - apply String.eqb_eq in E. rewrite E.
    assert (Hv : js_add (js_or (js_get (spentByCategory acc) k) (VNum pzero))
                   (val (amount t)) = VString).
    { unfold js_get. destruct Hcell as [-> | ->]; [rewrite Hk |];
        destruct (amount t); reflexivity. }
    rewrite Hv. unfold obj_set.
    destruct (has_own (spentByCategory acc) k) eqn:Hown.
    + right. apply own_get_replace_eq, Hown.
    + destruct (String.eqb k "__proto__") eqn:Hp.
      * left. unfold has_own in Hown.
        destruct (own_get (spentByCategory acc) k);
          [discriminate | reflexivity].
      * right. apply String.eqb_neq in Hp.
        rewrite <- (own_get_set_eq (spentByCategory acc) k VString Hp).
        unfold obj_set. rewrite Hown.
        apply String.eqb_neq in Hp. rewrite Hp. reflexivity.
  - apply String.eqb_neq in E. rewrite own_get_set_ne by congruence.
    exact Hcell.
Qed.

Lemma tally_inherited (ts : list Transaction) (k : string) :
  is_proto_member k = true ->
  own_get (spentByCategory (tally ts)) k = None
  \/ own_get (spentByCategory (tally ts)) k = Some VString.
Proof.
  intros Hk. unfold tally.
  assert (H : forall acc,
             own_get (spentByCategory acc) k = None
             \/ own_get (spentByCategory acc) k = Some VString ->
             own_get (spentByCategory (fold_left tally_step ts acc)) k = None
             \/ own_get (spentByCategory (fold_left tally_step ts acc)) k
                = Some VString).
  { induction ts as [| t ts IH]; intros acc Hacc; [exact Hacc |].
    cbn [fold_left]. apply IH, tally_step_inherited; assumption. }
  apply H. left. reflexivity.
Qed.

Lemma alert_for_key (tl : Tally) (cat : string) (goal : jnum) (a : Alert) :
  In a (alert_for tl cat goal) -> alert_key a = cat.
Proof.
  unfold alert_for. destruct (String.eqb cat "total") eqn:E.
  - apply String.eqb_eq in E.
    destruct (js_gt _ goal); intros H; [| destruct H].
    destruct H as [<- | []]. cbn. congruence.
  - destruct (js_gt _ goal); intros H; [| destruct H].
    destruct H as [<- | []]. reflexivity.
Qed.

(** C1.  The code misses the claim on the categories named like a member of
    [Object.prototype] ("constructor", "toString", "valueOf", ...): for such
    a key [spentByCategory[key]] reads the inherited member, which [|| 0] does
    not replace and to which [+] appends the amount as text, so that the
    comparison with the goal is false and no alert is ever emitted for the
    key.  One expense of 1000 in the category "constructor" against a goal of
    500 for "constructor": the spend, 1000, strictly exceeds the goal, yet
    [checkAlerts] returns no alert and [add] prints none. *)
Theorem checkAlerts_misses_inherited_key :
  (forall ts goals k a,
     is_proto_member k = true ->
     In a (checkAlerts ts goals) -> alert_key a <> k)
  /\ (let ts := [entry 1 "expense" (of_Z 1000) "constructor"] in
      let goals := [("constructor", JNum (of_Z 500))] in
      spend ts "constructor" = of_Z 1000
      /\ exceeded ts ("constructor", JNum (of_Z 500)) = true
      /\ js_get (spentByCategory (tally ts)) "constructor" = VString
      /\ checkAlerts ts goals = []
      /\ console (exec (Add 1 "2025-01-01" "expense" "1000" "constructor" "")
                    (run [SetGoal "constructor" "500"] None))
         = [Added "expense" (of_Z 1000) "constructor"]).
Proof.
  split.
  - intros ts goals k a Hk Ha Hkey.
    unfold checkAlerts in Ha. rewrite alerts_loop in Ha. cbn [app] in Ha.
    apply in_flat_map in Ha as [e [_ Ha]].
    pose proof (alert_for_key _ _ _ _ Ha) as Hfst.
    rewrite Hkey in Hfst. rewrite <- Hfst in Ha.
    unfold alert_for in Ha.
    assert (Ht : String.eqb k "total" = false).
    { destruct (String.eqb k "total") eqn:E; [| reflexivity].
      apply String.eqb_eq in E. subst k. discriminate Hk. }
    rewrite Ht in Ha. unfold js_get in Ha.
    destruct (tally_inherited ts k Hk) as [H | H]; rewrite H in Ha;
      [rewrite Hk in Ha |]; destruct (snd e) as [x |];
      try destruct x as [[|] | [|] | | [|] m x]; exact Ha.
  - cbv zeta. repeat split; vm_compute; reflexivity.
Qed.

(** [checkAlerts] on amounts that are not negative and goal keys that are
    not names of members of [Object.prototype]: there is an alert for a goal
    exactly when the spend strictly exceeds the goal value (all expenses for
    the key "total", the expenses of the category otherwise, 0 when there are
    none), and the alert carries the key, that spend and the goal value. *)
Theorem checkAlerts_exceeded_goals (ts : list Transaction) (goals : obj jnum) :
  amounts_nonneg ts -> plain_keys goals ->
  (forall a, In a (checkAlerts ts goals)
             <-> exists e, In e goals /\ exceeded ts e = true
                           /\ a = alert_of ts e)
  /\ (forall e, alert_key (alert_of ts e) = fst e
                /\ alert_spent (alert_of ts e) = VNum (spend ts (fst e))
                /\ alert_goal (alert_of ts e) = snd e)
  /\ (forall e, In e goals -> VNum (spend ts (fst e)) = val (snd e) ->
                ~ In (alert_of ts e) (checkAlerts ts goals)).
Proof.
  intros Hts Hp. rewrite (checkAlerts_spec ts goals Hts Hp).
  assert (Hin : forall a,
             In a (map (alert_of ts) (filter (exceeded ts) (ownEntries goals)))
             <-> exists e, In e goals /\ exceeded ts e = true
                           /\ a = alert_of ts e).
  { intros a. rewrite in_map_iff. split.
    - intros [e [<- He]]. apply filter_In in He as [He Hex].
      exists e. split; [| split; [exact Hex | reflexivity]].
      apply (Permutation_in _ (ownEntries_perm goals)), He.
    - intros [e [He [Hex ->]]]. exists e. split; [reflexivity |].
      apply filter_In. split; [| exact Hex].
      apply (Permutation_in _ (Permutation_sym (ownEntries_perm goals))), He. }
  split; [exact Hin | split].
  - intros e. split; [apply alert_of_key |].
    unfold alert_of. destruct (String.eqb (fst e) "total"); split; reflexivity.
  - intros e He Heq Hin'. apply Hin in Hin' as [e' [He' [Hex Hae]]].
    assert (Hk : fst e' = fst e).
    { rewrite <- (alert_of_key ts e'), <- Hae. apply alert_of_key. }
    assert (Hg : snd e' = snd e).
    { assert (H : alert_goal (alert_of ts e') = alert_goal (alert_of ts e))
        by congruence.
      unfold alert_of in H.
      destruct (String.eqb (fst e') "total"), (String.eqb (fst e) "total");
        exact H. }
    unfold exceeded, js_gt in Hex. rewrite Hk, Hg, <- Heq in Hex.
    cbn [ToNumber] in Hex. unfold num_lt, SFltb in Hex.
    destruct (spend ts (fst e)) as [s | s | | s m x]; cbn in Hex;
      try destruct s; try discriminate.
    + rewrite Z.compare_refl, Pos.compare_cont_refl in Hex. discriminate.
    + rewrite Z.compare_refl, Pos.compare_cont_refl in Hex. discriminate.
Qed.

Lemma checkAlerts_exceeded_goals_witness :
  let ts := [entry 1 "income" (of_Z 1000) "salary";
             entry 2 "expense" (of_Z 200) "groceries";
             entry 3 "expense" (of_Z 400) "groceries";
             entry 4 "expense" (of_Z 150) "groceries"] in
  let goals := [("groceries", JNum (of_Z 500)); ("total", JNum (of_Z 750))] in
  In (CategoryAlert "groceries" (VNum (of_Z 750)) (JNum (of_Z 500)))
     (checkAlerts ts goals)
  /\ ~ In (alert_of ts ("total", JNum (of_Z 750))) (checkAlerts ts goals).
Proof.
  cbv zeta.
  set (ts := [entry 1 "income" (of_Z 1000) "salary";
              entry 2 "expense" (of_Z 200) "groceries";
              entry 3 "expense" (of_Z 400) "groceries";
              entry 4 "expense" (of_Z 150) "groceries"]).
  set (goals := [("groceries", JNum (of_Z 500)); ("total", JNum (of_Z 750))]).
  assert (Hts : amounts_nonneg ts) by (repeat constructor).
  assert (Hp : plain_keys goals).
  { intros k [<- | [<- | []]]; reflexivity. }
  destruct (checkAlerts_exceeded_goals ts goals Hts Hp) as [Hiff [_ Heq]].
  split.
  - apply Hiff. exists ("groceries", JNum (of_Z 500)).
    split; [left; reflexivity | split; vm_compute; reflexivity].
  - apply Heq; [right; left; reflexivity | vm_compute; reflexivity].
Defined.

(** C6, as the code has it.  On amounts that are not negative and goal keys
    that are not names of members of [Object.prototype], the alerts are those
    of the exceeded goals in the order in which [for ... in] visits the keys
    of [goals]: first the keys that are array indices ("7", "2024"), by
    ascending numeric value, then the other keys in the order in which they
    were created; and every alert is that of an exceeded goal. *)
Theorem checkAlerts_key_order (ts : list Transaction) (goals : obj jnum) :
  amounts_nonneg ts -> plain_keys goals ->
  map alert_key (checkAlerts ts goals)
  = map fst (filter (exceeded ts) (ownEntries goals))
  /\ (exists idx,
        map fst (ownEntries goals)
        = idx ++ filter (fun k => negb (is_index k)) (map fst goals)
        /\ Permutation idx (filter is_index (map fst goals))
        /\ Sorted (fun a b => (index_of a <= index_of b)%N) idx)
  /\ (forall a, In a (checkAlerts ts goals) ->
        exists e, In e goals /\ alert_key a = fst e /\ exceeded ts e = true).
Proof.
  intros Hts Hp. rewrite (checkAlerts_spec ts goals Hts Hp).
  split; [| split].
  - rewrite map_map. apply map_ext. intros e. apply alert_of_key.
  - exact (ownKeys_order goals).
  - intros a Ha. apply in_map_iff in Ha as [e [<- He]].
    apply filter_In in He as [He Hex]. exists e.
    split; [| split; [apply alert_of_key | exact Hex]].
    apply (Permutation_in _ (ownEntries_perm goals)), He.
Qed.

Lemma checkAlerts_key_order_witness :
  let ts := [entry 1 "expense" (of_Z 600) "groceries";
             entry 2 "expense" (of_Z 200) "7";
             entry 3 "expense" (of_Z 10) "books"] in
  let goals := [("groceries", JNum (of_Z 500)); ("books", JNum (of_Z 50));
                ("7", JNum (of_Z 100))] in
  map alert_key (checkAlerts ts goals)
  = map fst (filter (exceeded ts) (ownEntries goals))
  /\ map fst (filter (exceeded ts) (ownEntries goals)) = ["7"; "groceries"].
Proof.
  cbv zeta. split; [| vm_compute; reflexivity].
  apply checkAlerts_key_order.
  - repeat constructor.
  - intros k [<- | [<- | [<- | []]]]; reflexivity.
Defined.

(** C6 as stated fails.  The goal for "groceries" is set first, the goal for
    "7" second, and both are exceeded: the alert for "7" comes first. *)
Lemma checkAlerts_not_in_creation_order :
  let goals := obj_set (obj_set [] "groceries" (JNum (of_Z 500)))
                 "7" (JNum (of_Z 100)) in
  let ts := [entry 1 "expense" (of_Z 600) "groceries";
             entry 2 "expense" (of_Z 200) "7"] in
  map fst goals = ["groceries"; "7"]
  /\ creation_order_alert_keys ts goals = ["groceries"; "7"]
  /\ map alert_key (checkAlerts ts goals) = ["7"; "groceries"]
  /\ map (fun m => match m with AlertLine a => alert_key a | _ => "" end)
       (console (exec (Add 2 "2025-01-02" "expense" "200" "7" "")
                  (run [SetGoal "groceries" "500"; SetGoal "7" "100";
                        Add 1 "2025-01-01" "expense" "600" "groceries" ""]
                     None)))
     = [""; "7"; "groceries"].
Proof. cbv zeta. repeat split; vm_compute; reflexivity. Qed.

(* ================================================================= *)
(** ** The file: proofs *)

Lemma json_transaction_idempotent (t : Transaction) :
  json_transaction (json_transaction t) = json_transaction t.
Proof.
  unfold json_transaction; cbn. rewrite json_num_idempotent. reflexivity.
Qed.

(** Reading the file twice changes nothing more: what is read is already in
    the form that JSON can hold. *)
Lemma loaded_transactions_fixed (f : file) :
  map json_transaction (transactions (loadData f)) = transactions (loadData f).
Proof.
  destruct f as [d |]; [| reflexivity].
  cbn. rewrite map_map. apply map_ext. exact json_transaction_idempotent.
Qed.

Lemma map_json_filter_keeps (s : string) (l : list Transaction) :
  map json_transaction (filter (keeps s) l)
  = filter (keeps s) (map json_transaction l).
Proof.
  induction l as [| t l IH]; [reflexivity |].
  cbn [filter map].
  change (keeps s (json_transaction t)) with (keeps s t).
  destruct (keeps s t); cbn [map]; rewrite IH; reflexivity.
Qed.

Lemma own_get_json_obj (o : obj jnum) (k : string) :
  own_get (json_obj o) k = option_map json_num (own_get o k).
Proof.
  unfold json_obj. rewrite own_get_map_values, own_get_ownEntries.
  reflexivity.
Qed.

Lemma loaded_goals_fixed (f : file) (k : string) :
  option_map json_num (own_get (goals (loadData f)) k)
  = own_get (goals (loadData f)) k.
Proof.
  destruct f as [d |]; [| reflexivity].
  cbn [loadData json_document goals]. rewrite own_get_json_obj.
  destruct (own_get (goals d) k); cbn; [| reflexivity].
  rewrite json_num_idempotent. reflexivity.
Qed.

Lemma Forall_json_obj (P : jnum -> Prop) (o : obj jnum) :
  Forall (fun e => P (json_num (snd e))) o ->
  Forall (fun e => P (snd e)) (json_obj o).
Proof.
  intros H. unfold json_obj, map_values. apply Forall_map. cbn [snd].
  apply (Permutation_Forall (Permutation_sym (ownEntries_perm o))), H.
Qed.

Lemma loaded_goals_values_fixed (f : file) :
  Forall (fun e => json_num (snd e) = snd e) (goals (loadData f)).
Proof.
  destruct f as [d |]; [| constructor].
  cbn [loadData json_document goals].
  apply (Forall_json_obj (fun a => json_num a = a)).
  apply Forall_forall. intros e _. apply json_num_idempotent.
Qed.

Lemma Forall_replace {A : Type} (P : A -> Prop) (o : obj A) (k : string)
    (v : A) :
  Forall (fun e => P (snd e)) o -> P v ->
  Forall (fun e => P (snd e)) (replace o k v).
Proof.
  intros Ho Hv. induction Ho as [| [k' v'] o He Ho IH]; [constructor |].
  cbn. destruct (String.eqb k' k); constructor; auto.
Qed.

Lemma Forall_obj_set {A : Type} (P : A -> Prop) (o : obj A) (k : string)
    (v : A) :
  Forall (fun e => P (snd e)) o -> P v ->
  Forall (fun e => P (snd e)) (obj_set o k v).
Proof.
  intros Ho Hv. unfold obj_set. destruct (has_own o k).
  - apply Forall_replace; assumption.
  - destruct (String.eqb k "__proto__"); [exact Ho |].
    apply Forall_app. split; [exact Ho | repeat constructor; exact Hv].
Qed.

Lemma json_obj_idempotent (o : obj jnum) : json_obj (json_obj o) = json_obj o.
Proof.
  unfold json_obj.
  rewrite ownEntries_map_values, ownEntries_idempotent.
  unfold map_values. rewrite map_map.
  apply map_ext. intros e. cbn [fst snd]. rewrite json_num_idempotent.
  reflexivity.
Qed.

Lemma json_document_idempotent (d : Document) :
  json_document (json_document d) = json_document d.
Proof.
  unfold json_document. cbn [transactions goals].
  rewrite json_obj_idempotent, map_map.
  f_equal. apply map_ext, json_transaction_idempotent.
Qed.

(** Saving what was loaded and loading again gives the same document: the
    round trip changes nothing once a document has been through the file. *)
Theorem load_save_load (f : file) :
  loadData (saveData (loadData f)) = loadData f.
Proof.
  destruct f as [d |]; [| reflexivity].
  cbn [loadData saveData]. apply json_document_idempotent.
Qed.

(* ================================================================= *)
(** ** Commands: proofs *)

Lemma refused_amount_test (s : string) :
  refused_amount s ->
  (isNaN (parseFloat s) || num_le (parseFloat s) pzero)%bool = true.
Proof. intros [H | H]; rewrite H; [reflexivity | apply orb_true_r]. Qed.

(** What [add] does with an amount it refuses. *)
Lemma add_action_refused
    (now : Z) (today : string) (f : file) (ty am cat desc : string) :
  refused_amount am ->
  add_action now today f ty am cat desc
  = {| disk := f;
       console := [if (String.eqb (toLowerCase ty) "income"
                       || String.eqb (toLowerCase ty) "expense")%bool
                   then InvalidAmount else InvalidType];
       exitCode := 1 |}.
Proof.
  intros Ham. unfold add_action.
  destruct (String.eqb (toLowerCase ty) "income");
    destruct (String.eqb (toLowerCase ty) "expense"); cbn [negb andb orb];
    try rewrite (refused_amount_test am Ham); reflexivity.
Qed.

(** C4, as the code has it.  When the amount argument reads as [NaN] or as
    a number [<= 0], [add] exits with status 1 and leaves the file as it was,
    so that no transaction is appended; the message is the one about the
    amount when the type is valid, and the one about the type otherwise (the
    type is checked first). *)
Theorem add_refuses_invalid_amount
    (now : Z) (today : string) (f : file) (ty am cat desc : string) :
  refused_amount am ->
  let r := add_action now today f ty am cat desc in
  exitCode r = 1
  /\ disk r = f
  /\ transactions (loadData (disk r)) = transactions (loadData f)
  /\ console r
     = [if (String.eqb (toLowerCase ty) "income"
            || String.eqb (toLowerCase ty) "expense")%bool
        then InvalidAmount else InvalidType].
Proof.
  intros Ham. cbv zeta.
  rewrite (add_action_refused now today f ty am cat desc Ham).
  repeat split.
Qed.

Lemma add_refuses_invalid_amount_witness :
  refused_amount "abc" /\ refused_amount "-5" /\ refused_amount "0"
  /\ exitCode (add_action 1 "2025-01-01" None "expense" "abc" "rent" "") = 1
  /\ console (add_action 1 "2025-01-01" None "expense" "-5" "rent" "")
     = [InvalidAmount]
  /\ console (add_action 1 "2025-01-01" None "gift" "0" "rent" "")
     = [InvalidType].
Proof.
  assert (H1 : refused_amount "abc") by (left; vm_compute; reflexivity).
  assert (H2 : refused_amount "-5") by (right; vm_compute; reflexivity).
  assert (H3 : refused_amount "0") by (right; vm_compute; reflexivity).
  pose proof (add_refuses_invalid_amount 1 "2025-01-01" None "expense" "abc"
                "rent" "" H1) as A.
  pose proof (add_refuses_invalid_amount 1 "2025-01-01" None "expense" "-5"
                "rent" "" H2) as B.
  pose proof (add_refuses_invalid_amount 1 "2025-01-01" None "gift" "0"
                "rent" "" H3) as C.
  cbv zeta in A, B, C.
  split; [exact H1 | split; [exact H2 | split; [exact H3 |]]].
  split; [apply A | split; [apply B | apply C]].
Defined.

(** C4 as stated fails.  "Infinity" reads as a number that is not finite,
    yet [add] accepts it, exits with status 0 and appends a transaction
    (whose amount the file holds as [null]); and an amount that is refused
    is reported as an invalid type when the type is invalid too. *)
Lemma add_accepts_infinity :
  let r := add_action 1 "2025-01-01" None "expense" "Infinity" "rent" "" in
  isFinite (parseFloat "Infinity") = false
  /\ exitCode r = 0
  /\ console r = [Added "expense" infinity "rent"]
  /\ transactions (loadData (disk r))
     = [{| id := 1; type := "expense"; amount := JNull; category := "rent";
           description := ""; date := "2025-01-01" |}]
  /\ console (add_action 1 "2025-01-01" None "gift" "-5" "rent" "")
     = [InvalidType].
Proof. cbv zeta. repeat split; vm_compute; reflexivity. Qed.



Lemma delete_action_cases (f : file) (s : string) :
  let ts := transactions (loadData f) in
  (filter (keeps s) ts = ts
   /\ delete_action f s
      = {| disk := f; console := [NotFound]; exitCode := 0 |})
  \/ (filter (keeps s) ts <> ts
      /\ delete_action f s
         = {| disk := saveData {| transactions := filter (keeps s) ts;
                                  goals := goals (loadData f) |};
              console := [Deleted s]; exitCode := 0 |}).
Proof.
  cbv zeta. unfold delete_action.
  fold (keeps s).
  destruct (Nat.eqb _ _) eqn:E.
  - left. apply Nat.eqb_eq, filter_same_length in E.
    split; [exact E | reflexivity].
  - right. apply Nat.eqb_neq in E. split; [| reflexivity].
    intros H. apply E. rewrite H. reflexivity.
Qed.

(** C5.  When no transaction of the document has an id whose decimal form
    is the given string, [delete] reports that nothing was found, writes
    nothing, and the file and the transactions it holds are as before.  The
    test compares strings: an identifier that merely denotes the same number
    as an id ("1723000000000.0") matches nothing. *)
Theorem delete_unknown_id (f : file) (s : string) :
  (forall t, In t (transactions (loadData f)) -> idToString (id t) <> s) ->
  let r := delete_action f s in
  console r = [NotFound]
  /\ exitCode r = 0
  /\ disk r = f
  /\ transactions (loadData (disk r)) = transactions (loadData f).
Proof.
  intros Hs. cbv zeta.
  destruct (delete_action_cases f s) as [[_ ->] | [Hne _]].
  - repeat split.
  - exfalso. apply Hne. apply filter_all. intros t Ht.
    unfold keeps. apply negb_true_iff, String.eqb_neq, Hs, Ht.
Qed.

Lemma delete_unknown_id_witness :
  let f := run [Add 1723000000000 "2024-08-07" "income" "1000" "salary" ""]
             None in
  map id (transactions (loadData f)) = [1723000000000]
  /\ parseFloat "1723000000000.0" = of_Z 1723000000000
  /\ console (delete_action f "1723000000000.0") = [NotFound]
  /\ disk (delete_action f "1723000000000.0") = f.
Proof.
  cbv zeta.
  set (f := run [Add 1723000000000 "2024-08-07" "income" "1000" "salary" ""]
              None).
  assert (H : forall t, In t (transactions (loadData f)) ->
                        idToString (id t) <> "1723000000000.0").
  { intros t [<- | []]. vm_compute. discriminate. }
  pose proof (delete_unknown_id f "1723000000000.0" H) as A. cbv zeta in A.
  split; [reflexivity | split; [vm_compute; reflexivity |]].
  split; apply A.
Defined.

(** What the file holds after [delete]. *)
Lemma delete_transactions (f : file) (s : string) :
  transactions (loadData (disk (delete_action f s)))
  = filter (keeps s) (transactions (loadData f)).
Proof.
  destruct (delete_action_cases f s) as [[Heq ->] | [_ ->]]; cbn [disk].
  - symmetry. exact Heq.
  - cbn [saveData loadData json_document transactions].
    rewrite map_json_filter_keeps, loaded_transactions_fixed. reflexivity.
Qed.

(** C10.  [delete] keeps exactly the transactions whose id does not have
    the given decimal form, in their order: every transaction with that id is
    removed, not only the first.  Two transactions added in the same
    millisecond share their id, and one [delete] removes both. *)
Theorem delete_removes_every_match :
  (forall f s,
     transactions (loadData (disk (delete_action f s)))
     = filter (keeps s) (transactions (loadData f)))
  /\ (forall f s t,
        In t (transactions (loadData (disk (delete_action f s)))) ->
        idToString (id t) <> s)
  /\ (let f := run [Add 5 "2025-01-01" "expense" "10" "food" "";
                    Add 5 "2025-01-01" "expense" "20" "rent" "";
                    Add 6 "2025-01-01" "income" "30" "gift" ""] None in
      map id (transactions (loadData f)) = [5; 5; 6]
      /\ map id (transactions (loadData (disk (delete_action f "5")))) = [6]).
Proof.
  split; [exact delete_transactions | split].
  - intros f s t Ht. rewrite delete_transactions in Ht.
    apply filter_In in Ht as [_ Ht].
    unfold keeps in Ht. apply negb_true_iff, String.eqb_neq in Ht. exact Ht.
  - cbv zeta. split; vm_compute; reflexivity.
Qed.

Lemma positive_finite_accepted (x : number) :
  positive_finite x -> (isNaN x || num_le x pzero)%bool = false.
Proof. number_cases x; intros H; try contradiction; reflexivity. Qed.

Lemma setgoal_accepted (f : file) (k am : string) :
  (isNaN (parseFloat am) || num_le (parseFloat am) pzero)%bool = false ->
  goals (loadData (disk (setgoal_action f k am)))
  = json_obj (obj_set (goals (loadData f)) k (JNum (parseFloat am)))
  /\ transactions (loadData (disk (setgoal_action f k am)))
     = transactions (loadData f).
Proof.
  intros H. unfold setgoal_action. rewrite H.
  cbn [disk saveData loadData json_document goals transactions].
  split; [reflexivity | apply loaded_transactions_fixed].
Qed.

Lemma has_own_In {A : Type} (o : obj A) (k : string) :
  has_own o k = false -> ~ In k (map fst o).
Proof.
  unfold has_own. induction o as [| [k' v'] o IH]; cbn; [tauto |].
  destruct (String.eqb k' k) eqn:E; [discriminate |].
  apply String.eqb_neq in E. intros H [Hk | Hk]; [congruence | exact (IH H Hk)].
Qed.

Lemma replace_keys {A : Type} (o : obj A) (k : string) (v : A) :
  map fst (replace o k v) = map fst o.
Proof.
  induction o as [| [k' v'] o IH]; [reflexivity |].
  cbn. destruct (String.eqb k' k); cbn; [| rewrite IH]; reflexivity.
Qed.

(** Assignment keeps the keys of an object pairwise distinct. *)
Lemma obj_set_NoDup {A : Type} (o : obj A) (k : string) (v : A) :
  NoDup (map fst o) -> NoDup (map fst (obj_set o k v)).
Proof.
  intros H. unfold obj_set. destruct (has_own o k) eqn:E.
  - rewrite replace_keys. exact H.
  - destruct (String.eqb k "__proto__"); [exact H |].
    rewrite map_app. cbn [map fst].
    apply (Permutation_NoDup (Permutation_cons_append (map fst o) k)).
    constructor; [apply has_own_In, E | exact H].
Qed.

Lemma json_obj_NoDup (o : obj jnum) :
  NoDup (map fst o) -> NoDup (map fst (json_obj o)).
Proof.
  intros H. unfold json_obj, map_values. rewrite map_map. cbn [fst].
  apply (Permutation_NoDup
           (Permutation_map fst (Permutation_sym (ownEntries_perm o)))), H.
Qed.

Lemma goals_positive_set (g : obj jnum) (k : string) (x : number) :
  Forall (fun e => json_num (snd e) = snd e) g ->
  goals_positive g -> positive_finite x ->
  goals_positive (json_obj (obj_set g k (JNum x))).
Proof.
  intros Hfix Hpos Hx. unfold goals_positive.
  apply (Forall_json_obj is_positive).
  apply (Forall_obj_set (fun a => is_positive (json_num a))).
  - apply Forall_forall. intros e He. unfold goals_positive in Hpos.
    rewrite Forall_forall in Hfix, Hpos.
    rewrite (Hfix e He). apply Hpos, He.
  - rewrite (positive_finite_json x Hx). apply positive_finite_positive, Hx.
Qed.

(** C7, as the code has it.  For every key other than "__proto__" and
    amounts [a] then [b] that read as positive finite numbers, [setgoal k a]
    followed by [setgoal k b] leaves the goals with the value of [b] at [k],
    every other key as it was, keys that are still pairwise distinct (the
    entry is overwritten, no second one is added), and only positive goal
    values if there were only positive ones. *)
Theorem setgoal_overwrites (f : file) (k a b : string) :
  k <> "__proto__" ->
  positive_finite (parseFloat a) -> positive_finite (parseFloat b) ->
  let g0 := goals (loadData f) in
  let g := goals (loadData (run [SetGoal k a; SetGoal k b] f)) in
  own_get g k = Some (JNum (parseFloat b))
  /\ (forall k', k' <> k -> own_get g k' = own_get g0 k')
  /\ (NoDup (map fst g0) -> NoDup (map fst g))
  /\ (goals_positive g0 -> goals_positive g).
Proof.
  intros Hk Ha Hb. cbv zeta. cbn [run fold_left exec].
  pose proof (positive_finite_accepted _ Ha) as Ta.
  pose proof (positive_finite_accepted _ Hb) as Tb.
  set (f1 := disk (setgoal_action f k a)).
  destruct (setgoal_accepted f k a Ta) as [G1 _]. fold f1 in G1.
  destruct (setgoal_accepted f1 k b Tb) as [G2 _].
  rewrite G2. repeat split.
  - rewrite own_get_json_obj, own_get_set_eq by exact Hk. cbn [option_map].
    rewrite (positive_finite_json _ Hb). reflexivity.
  - intros k' Hk'.
    rewrite own_get_json_obj, own_get_set_ne by exact Hk'.
    rewrite loaded_goals_fixed, G1.
    rewrite own_get_json_obj, own_get_set_ne by exact Hk'.
    apply loaded_goals_fixed.
  - intros Hnd. apply json_obj_NoDup, obj_set_NoDup. rewrite G1.
    apply json_obj_NoDup, obj_set_NoDup, Hnd.
  - intros Hpos. apply goals_positive_set.
    + apply loaded_goals_values_fixed.
    + rewrite G1. apply goals_positive_set.
      * apply loaded_goals_values_fixed.
      * exact Hpos.
      * exact Ha.
    + exact Hb.
Qed.

Lemma setgoal_overwrites_witness :
  let f := run [SetGoal "total" "2000"; SetGoal "groceries" "300"] None in
  own_get (goals (loadData
                    (run [SetGoal "groceries" "400"; SetGoal "groceries" "500"]
                       f)))
    "groceries"
  = Some (JNum (parseFloat "500"))
  /\ parseFloat "500" = of_Z 500
  /\ own_get (goals (loadData
                       (run [SetGoal "groceries" "400";
                             SetGoal "groceries" "500"] f)))
       "total"
     = Some (JNum (of_Z 2000)).
Proof.
  cbv zeta.
  set (f := run [SetGoal "total" "2000"; SetGoal "groceries" "300"] None).
  assert (Hk : "groceries" <> "__proto__") by discriminate.
  assert (Ha : positive_finite (parseFloat "400")) by exact I.
  assert (Hb : positive_finite (parseFloat "500")) by exact I.
  pose proof (setgoal_overwrites f "groceries" "400" "500" Hk Ha Hb) as A.
  cbv zeta in A. destruct A as [A1 [A2 _]].
  split; [exact A1 | split; [vm_compute; reflexivity |]].
  rewrite A2 by discriminate. vm_compute. reflexivity.
Defined.

(** C7 as stated fails.  An amount that reads as [Infinity] is positive
    and accepted, and the file holds it as [null]: the value at the key is
    not the amount, and is not positive.  And for the key "__proto__" the
    assignment stores nothing: after two [setgoal] the goals have no such
    entry, though each run reports the goal as set. *)
Lemma setgoal_value_not_stored :
  let f := run [SetGoal "rent" "100"; SetGoal "rent" "Infinity"] None in
  let f' := run [SetGoal "__proto__" "100"; SetGoal "__proto__" "200"] None in
  num_lt pzero (parseFloat "Infinity") = true
  /\ own_get (goals (loadData f)) "rent" = Some JNull
  /\ js_gt (val JNull) (JNum pzero) = false
  /\ positive_finite (parseFloat "100") /\ positive_finite (parseFloat "200")
  /\ console (setgoal_action None "__proto__" "100")
     = [GoalSet "__proto__" (of_Z 100)]
  /\ goals (loadData f') = []
  /\ own_get (goals (loadData f')) "__proto__" = None.
Proof.
  cbv zeta. repeat split; vm_compute; reflexivity.
Qed.

(* ================================================================= *)
(** ** The invariant of the file *)

Lemma valid_type_test (ty : string) :
  (negb (String.eqb ty "income") && negb (String.eqb ty "expense"))%bool
  = false ->
  ty = "income" \/ ty = "expense".
Proof.
  destruct (String.eqb ty "income") eqn:E1; [left; apply String.eqb_eq, E1 |].
  destruct (String.eqb ty "expense") eqn:E2; [right; apply String.eqb_eq, E2 |].
  discriminate.
Qed.

Lemma accepted_finite (x : number) :
  (isNaN x || num_le x pzero)%bool = false -> x <> infinity ->
  positive_finite x.
Proof.
  number_cases x; intros H Hinf; try discriminate; try exact I.
  exfalso. apply Hinf. reflexivity.
Qed.

Lemma entry_ok_positive (t : Transaction) : entry_ok t -> transaction_ok t.
Proof.
  intros [[x [Hx Hpos]] Hty]. split; [| exact Hty].
  rewrite Hx. apply positive_finite_positive, Hpos.
Qed.

Lemma StronglySorted_snoc {X : Type} (R : X -> X -> Prop) (l : list X) (y : X) :
  StronglySorted R l -> (forall x, In x l -> R x y) ->
  StronglySorted R (l ++ [y]).
Proof.
  induction 1 as [| x l Hs IH Hx]; intros Hy; cbn.
  - repeat constructor.
  - constructor.
    + apply IH. intros z Hz. apply Hy. right. exact Hz.
    + apply Forall_app. split; [exact Hx |].
      repeat constructor. apply Hy. left. reflexivity.
Qed.

Lemma StronglySorted_filter_ids (p : Transaction -> bool)
    (l : list Transaction) :
  StronglySorted Z.lt (map id l) -> StronglySorted Z.lt (map id (filter p l)).
Proof.
  induction l as [| t l IH]; cbn; intros H; [constructor |].
  apply StronglySorted_inv in H as [Hs Hhd].
  destruct (p t); cbn; [| exact (IH Hs)].
  constructor; [exact (IH Hs) |].
  rewrite Forall_forall in *. intros n Hn. apply Hhd.
  apply in_map_iff in Hn as [t' [<- Ht']]. apply in_map.
  apply filter_In in Ht'. apply Ht'.
Qed.

Lemma StronglySorted_lt_NoDup (l : list Z) : StronglySorted Z.lt l -> NoDup l.
Proof.
  induction 1 as [| x l Hs IH Hx]; constructor; [| exact IH].
  intros Hin. rewrite Forall_forall in Hx. specialize (Hx x Hin). lia.
Qed.

(** The outcome of [add]: refused and the file is as it was, or accepted
    with a valid type and an amount [> 0], and the new transaction is last in
    the file. *)
Lemma add_action_cases
    (now : Z) (today : string) (f : file) (ty am cat desc : string) :
  let r := add_action now today f ty am cat desc in
  disk r = f
  \/ ((toLowerCase ty = "income" \/ toLowerCase ty = "expense")
      /\ (isNaN (parseFloat am) || num_le (parseFloat am) pzero)%bool = false
      /\ transactions (loadData (disk r))
         = transactions (loadData f)
           ++ [{| id := now; type := toLowerCase ty;
                  amount := json_num (JNum (parseFloat am));
                  category := cat; description := desc; date := today |}]).
Proof.
  cbv zeta. unfold add_action.
  destruct (negb _ && negb _)%bool eqn:Ety; [left; reflexivity |].
  destruct (isNaN _ || num_le _ _)%bool eqn:Eam; [left; reflexivity |].
  right. split; [apply valid_type_test, Ety | split; [reflexivity |]].
  cbn [disk saveData loadData json_document transactions].
  rewrite map_app, loaded_transactions_fixed. reflexivity.
Qed.

Lemma before_tail (ts : list Transaction) (n : Z) (ns : list Z) :
  before ts (n :: ns) -> before ts ns.
Proof. intros H t m Ht Hm. apply H; [exact Ht | right; exact Hm]. Qed.

(** One run keeps the invariant, and keeps the ids earlier than the clock
    readings still to come. *)
Lemma exec_store_ok (c : Command) (cs : list Command) (f : file) :
  store_ok (transactions (loadData f)) ->
  clock_increasing (c :: cs) ->
  amounts_not_infinite (c :: cs) ->
  before (transactions (loadData f)) (stamps (c :: cs)) ->
  store_ok (transactions (loadData (disk (exec c f))))
  /\ before (transactions (loadData (disk (exec c f)))) (stamps cs).
Proof.
  intros [Hok Hsorted] Hclock Hfin Hbefore.
  unfold clock_increasing in Hclock. apply Forall_inv in Hfin.
  destruct c as [now today ty am cat desc | s | cat am]; cbn [exec].
  - cbn [stamps flat_map app] in Hclock, Hbefore.
    fold (stamps cs) in Hclock, Hbefore.
    apply StronglySorted_inv in Hclock as [_ Hnow].
    destruct (add_action_cases now today f ty am cat desc)
      as [-> | [Hty [Ham ->]]].
    + split; [split; assumption | exact (before_tail _ _ _ Hbefore)].
    + pose proof (accepted_finite _ Ham Hfin) as Hpos.
      rewrite (positive_finite_json _ Hpos).
      split; [split |].
      * apply Forall_app. split; [exact Hok |].
        constructor; [| constructor]. split; [| exact Hty].
        exists (parseFloat am). split; [reflexivity | exact Hpos].
      * rewrite map_app. cbn [map id].
        apply StronglySorted_snoc; [exact Hsorted |].
        intros n Hn. apply in_map_iff in Hn as [t [<- Ht]].
        apply Hbefore; [exact Ht | left; reflexivity].
      * intros t n Ht Hn. apply in_app_or in Ht as [Ht | [<- | []]].
        -- apply Hbefore; [exact Ht | right; exact Hn].
        -- cbn [id]. rewrite Forall_forall in Hnow. apply Hnow, Hn.
  - cbn [stamps flat_map app] in Hbefore. fold (stamps cs) in Hbefore.
    rewrite delete_transactions.
    split; [split |].
    + rewrite Forall_forall in *. intros t Ht. apply Hok.
      apply filter_In in Ht. apply Ht.
    + apply StronglySorted_filter_ids, Hsorted.
    + intros t n Ht Hn. apply filter_In in Ht.
      apply Hbefore; [apply Ht | exact Hn].
  - cbn [stamps flat_map app] in Hbefore. fold (stamps cs) in Hbefore.
    unfold setgoal_action.
    destruct (isNaN _ || num_le _ _)%bool;
      cbn [disk saveData loadData json_document transactions];
      rewrite ?loaded_transactions_fixed;
      (split; [split; assumption | exact Hbefore]).
Qed.

Lemma clock_increasing_tail (c : Command) (cs : list Command) :
  clock_increasing (c :: cs) -> clock_increasing cs.
Proof.
  unfold clock_increasing. destruct c; cbn [stamps flat_map app]; intros H;
    [apply StronglySorted_inv in H; apply H | exact H | exact H].
Qed.

Lemma run_store_ok (cs : list Command) (f : file) :
  store_ok (transactions (loadData f)) ->
  clock_increasing cs ->
  amounts_not_infinite cs ->
  before (transactions (loadData f)) (stamps cs) ->
  store_ok (transactions (loadData (run cs f))).
Proof.
  revert f. induction cs as [| c cs IH]; intros f Hok Hclock Hfin Hb;
    [exact Hok |].
  destruct (exec_store_ok c cs f Hok Hclock Hfin Hb) as [Hok' Hb'].
  change (run (c :: cs) f) with (run cs (disk (exec c f))).
  apply IH; [exact Hok' | | | exact Hb'].
  - exact (clock_increasing_tail c cs Hclock).
  - exact (Forall_inv_tail Hfin).
Qed.

(** C3, as the code has it.  After any sequence of [add], [delete] and
    [setgoal] runs from the absent file in which the clock readings of the
    [add] runs increase strictly and no amount reads as [Infinity], every
    transaction of the file has an amount [> 0] and the type "income" or
    "expense", no two have the same id, and the ids increase along the list,
    that is in the order of creation. *)
Theorem store_invariant (cs : list Command) :
  clock_increasing cs -> amounts_not_infinite cs ->
  let ts := transactions (loadData (run cs None)) in
  Forall transaction_ok ts
  /\ NoDup (map id ts)
  /\ StronglySorted Z.lt (map id ts).
Proof.
  intros Hclock Hfin. cbv zeta.
  assert (H : store_ok (transactions (loadData (run cs None)))).
  { apply run_store_ok; [| exact Hclock | exact Hfin |].
    - split; constructor.
    - intros t n []. }
  destruct H as [Hok Hsorted]. split; [| split].
  - apply (Forall_impl _ entry_ok_positive), Hok.
  - apply StronglySorted_lt_NoDup, Hsorted.
  - exact Hsorted.
Qed.

Lemma store_invariant_witness :
  let cs := [Add 10 "2025-01-01" "income" "1000" "salary" "July paycheck";
             Add 20 "2025-01-01" "Expense" "200" "groceries" "";
             SetGoal "groceries" "500";
             Delete "10";
             Add 30 "2025-01-02" "expense" "abc" "groceries" "";
             Add 40 "2025-01-02" "expense" "400.5" "groceries" ""] in
  map id (transactions (loadData (run cs None))) = [20; 40]
  /\ Forall transaction_ok (transactions (loadData (run cs None)))
  /\ NoDup (map id (transactions (loadData (run cs None)))).
Proof.
  cbv zeta.
  set (cs := [Add 10 "2025-01-01" "income" "1000" "salary" "July paycheck";
              Add 20 "2025-01-01" "Expense" "200" "groceries" "";
              SetGoal "groceries" "500";
              Delete "10";
              Add 30 "2025-01-02" "expense" "abc" "groceries" "";
              Add 40 "2025-01-02" "expense" "400.5" "groceries" ""]).
  assert (Hclock : clock_increasing cs).
  { unfold clock_increasing. cbn. repeat constructor; lia. }
  assert (Hfin : amounts_not_infinite cs).
  { repeat constructor; intros H; vm_compute in H; discriminate H. }
  pose proof (store_invariant cs Hclock Hfin) as A. cbv zeta in A.
  split; [vm_compute; reflexivity | split; apply A].
Defined.

(** C3 as stated fails.  Two [add] runs that read the same millisecond
    give two transactions the same id; and an amount that reads as [Infinity]
    is accepted and held in the file as [null], which is not [> 0]. *)
Lemma store_invariant_fails :
  let ts := transactions
              (loadData (run [Add 5 "2025-01-01" "expense" "10" "food" "";
                              Add 5 "2025-01-01" "expense" "20" "rent" ""]
                           None)) in
  let ts' := transactions
               (loadData
                  (run [Add 1 "2025-01-01" "expense" "Infinity" "rent" ""]
                     None)) in
  map id ts = [5; 5]
  /\ ~ NoDup (map id ts)
  /\ map amount ts' = [JNull]
  /\ ~ Forall transaction_ok ts'.
Proof.
  cbv zeta. split; [vm_compute; reflexivity | split; [| split]].
  - intros H. vm_compute in H. apply NoDup_cons_iff in H as [H _].
    apply H. left. reflexivity.
  - vm_compute. reflexivity.
  - intros H. vm_compute in H. apply Forall_inv in H as [H _].
    vm_compute in H. discriminate H.
Qed.

(* ================================================================= *)
(** ** Further properties of the commands *)

Lemma positive_accepted (x : number) :
  num_lt pzero x = true -> (isNaN x || num_le x pzero)%bool = false.
Proof. number_cases x; intros H; try discriminate; reflexivity. Qed.

Lemma loaded_goals_json_fixed (f : file) :
  json_obj (goals (loadData f)) = goals (loadData f).
Proof.
  destruct f as [d |]; [| reflexivity].
  cbn [loadData json_document goals]. apply json_obj_idempotent.
Qed.

(** With a type that is "income" or "expense" up to case and an amount that
    reads as a number [> 0], [add] exits with status 0; the file then holds
    the transactions it held followed by the new one, whose id is the clock
    reading, whose type is the lower-case type, whose amount is the number
    read (as JSON holds it) and whose category is the argument as given; the
    goals are as before; and the alerts printed are those of [checkAlerts] on
    the new list. *)
Theorem add_appends_transaction
    (now : Z) (today : string) (f : file) (ty am cat desc : string) :
  toLowerCase ty = "income" \/ toLowerCase ty = "expense" ->
  num_lt pzero (parseFloat am) = true ->
  let r := add_action now today f ty am cat desc in
  let t := {| id := now; type := toLowerCase ty;
              amount := JNum (parseFloat am); category := cat;
              description := desc; date := today |} in
  exitCode r = 0
  /\ transactions (loadData (disk r))
     = transactions (loadData f) ++ [json_transaction t]
  /\ goals (loadData (disk r)) = goals (loadData f)
  /\ console r
     = Added (toLowerCase ty) (parseFloat am) cat
       :: map AlertLine
            (checkAlerts (transactions (loadData f) ++ [t])
               (goals (loadData f))).
Proof.
  intros Hty Ham. cbv zeta. unfold add_action.
  assert (Ety : (negb (String.eqb (toLowerCase ty) "income")
                 && negb (String.eqb (toLowerCase ty) "expense"))%bool = false).
  { destruct Hty as [-> | ->]; reflexivity. }
  rewrite Ety, (positive_accepted _ Ham).
  cbn [exitCode disk console saveData loadData json_document transactions
       goals].
  rewrite map_app, loaded_transactions_fixed, loaded_goals_json_fixed.
  repeat split.
Qed.

Lemma add_appends_transaction_witness :
  let r := add_action 1723000000000 "2024-08-07" None "Income" "1000.50"
             "salary" "July paycheck" in
  exitCode r = 0
  /\ transactions (loadData (disk r))
     = [{| id := 1723000000000; type := "income";
           amount := JNum (parseFloat "1000.50"); category := "salary";
           description := "July paycheck"; date := "2024-08-07" |}].
Proof.
  cbv zeta.
  assert (Hty : toLowerCase "Income" = "income"
                \/ toLowerCase "Income" = "expense") by (left; reflexivity).
  assert (Ham : num_lt pzero (parseFloat "1000.50") = true)
    by (vm_compute; reflexivity).
  pose proof (add_appends_transaction 1723000000000 "2024-08-07" None "Income"
                "1000.50" "salary" "July paycheck" Hty Ham) as A.
  cbv zeta in A. destruct A as [A1 [A2 _]].
  split; [exact A1 |]. rewrite A2. vm_compute. reflexivity.
Defined.

(** The scenario of the specification: an income of 1000, expenses of 200
    and 400 in "groceries", a goal of 500 for "groceries"; the next expense
    of 150 in "groceries" reports the category with 750 spent against 500. *)
Theorem groceries_scenario :
  let f := run [Add 1 "2025-07-01" "income" "1000" "salary" "July paycheck";
                Add 2 "2025-07-02" "expense" "200" "groceries" "Weekly";
                Add 3 "2025-07-03" "expense" "400" "groceries" "Bonus snacks";
                SetGoal "groceries" "500"] None in
  console (exec (Add 4 "2025-07-04" "expense" "150" "groceries" "") f)
  = [Added "expense" (of_Z 150) "groceries";
     AlertLine (CategoryAlert "groceries" (VNum (of_Z 750)) (JNum (of_Z 500)))]
  /\ calculateBalance (transactions (loadData f)) = of_Z 400.
Proof. cbv zeta. split; vm_compute; reflexivity. Qed.

(** Two ids with the same decimal form are the same id. *)
Lemma idToString_inj (a b : Z) : idToString a = idToString b -> a = b.
Proof.
  unfold idToString. intros H. apply DecimalZ.to_int_inj.
  assert (Hnn : forall z, Z.to_int z <> Decimal.Pos Decimal.Nil
                          /\ Z.to_int z <> Decimal.Neg Decimal.Nil).
  { intros [| p | p]; cbn; split; try discriminate;
      intros E; injection E; apply DecimalPos.Unsigned.to_uint_nonnil. }
  pose proof (NilZero.isi (Z.to_int a) (proj1 (Hnn a)) (proj2 (Hnn a))) as Ha.
  pose proof (NilZero.isi (Z.to_int b) (proj1 (Hnn b)) (proj2 (Hnn b))) as Hb.
  rewrite H in Ha. congruence.
Qed.

(** Given the decimal form of an id, [delete] removes the transactions with
    that id and no other. *)
Theorem delete_by_id (f : file) (n : Z) :
  transactions (loadData (disk (delete_action f (idToString n))))
  = filter (fun t => negb (id t =? n)) (transactions (loadData f)).
Proof.
  rewrite delete_transactions. apply filter_ext. intros t. unfold keeps.
  f_equal. destruct (id t =? n) eqn:E.
  - apply Z.eqb_eq in E. rewrite E. apply String.eqb_refl.
  - apply String.eqb_neq. intros H. apply idToString_inj in H.
    apply Z.eqb_neq in E. contradiction.
Qed.

Lemma keys_obj_set {A : Type} (o : obj A) (k : string) (v : A) :
  map fst (obj_set o k v)
  = if (has_own o k || String.eqb k "__proto__")%bool
    then map fst o else map fst o ++ [k].
Proof.
  unfold obj_set. destruct (has_own o k); cbn [orb].
  - apply replace_keys.
  - destruct (String.eqb k "__proto__"); [reflexivity |].
    rewrite map_app. reflexivity.
Qed.

Lemma keys_json_obj (o : obj jnum) : map fst (json_obj o) = ownKeys o.
Proof.
  unfold json_obj, map_values, ownKeys. rewrite map_map. reflexivity.
Qed.

Lemma named_keys_ownKeys {A : Type} (o : obj A) :
  filter (fun k => negb (is_index k)) (ownKeys o)
  = filter (fun k => negb (is_index k)) (map fst o).
Proof.
  unfold ownKeys, ownEntries. rewrite map_app, filter_app.
  rewrite <- !(map_fst_filter (fun k => negb (is_index k))).
  rewrite (filter_none (fun e => negb (is_index (fst e)))
             (sort_by_index (index_entries o)))
    by (intros e He; rewrite (sorted_index_entries_are_indices o e He);
        reflexivity).
  rewrite (filter_all (fun e => negb (is_index (fst e))) (named_entries o))
    by (intros e He; rewrite (named_entries_are_named o e He); reflexivity).
  reflexivity.
Qed.

(** The goal keys that are not array indices stay in the order in which
    they were first set: an accepted [setgoal] for a key that is new (and is
    not "__proto__") puts it after them, and any other [setgoal] leaves their
    order as it was. *)
Theorem setgoal_keeps_creation_order (f : file) (k am : string) :
  let named := filter (fun k => negb (is_index k)) in
  let g0 := goals (loadData f) in
  let g := goals (loadData (disk (setgoal_action f k am))) in
  named (map fst g)
  = if (isNaN (parseFloat am) || num_le (parseFloat am) pzero
        || has_own g0 k || String.eqb k "__proto__")%bool
    then named (map fst g0)
    else named (map fst g0 ++ [k]).
Proof.
  cbv zeta.
  destruct (isNaN (parseFloat am) || num_le (parseFloat am) pzero)%bool eqn:E.
  - unfold setgoal_action. rewrite E. reflexivity.
  - destruct (setgoal_accepted f k am E) as [-> _].
    rewrite keys_json_obj, named_keys_ownKeys, keys_obj_set.
    cbn [orb]. destruct (has_own _ k || String.eqb k "__proto__")%bool;
      reflexivity.
Qed.

(* ================================================================= *)
(** ** How the commands compose *)

Lemma filter_keeps_idempotent (s : string) (l : list Transaction) :
  filter (keeps s) (filter (keeps s) l) = filter (keeps s) l.
Proof.
  apply filter_all. intros t Ht. apply filter_In in Ht. apply Ht.
Qed.

(** Once [delete] has run for an identifier, a second run for it finds
    nothing: it reports that no transaction has that id and writes
    nothing. *)
Theorem delete_twice (f : file) (s : string) :
  let f1 := disk (delete_action f s) in
  console (delete_action f1 s) = [NotFound]
  /\ exitCode (delete_action f1 s) = 0
  /\ disk (delete_action f1 s) = f1.
Proof.
  cbv zeta. set (f1 := disk (delete_action f s)).
  destruct (delete_action_cases f1 s) as [[_ ->] | [Hne _]].
  - repeat split.
  - exfalso. apply Hne. unfold f1. rewrite delete_transactions.
    apply filter_keeps_idempotent.
Qed.

(** The goals that [add] leaves in the file are those it found. *)
Lemma add_action_goals
    (now : Z) (today : string) (f : file) (ty am cat desc : string) :
  goals (loadData (disk (add_action now today f ty am cat desc)))
  = goals (loadData f).
Proof.
  unfold add_action.
  destruct (negb _ && negb _)%bool; [reflexivity |].
  destruct (isNaN _ || num_le _ _)%bool; [reflexivity |].
  cbn [disk saveData loadData json_document goals].
  apply loaded_goals_json_fixed.
Qed.

Lemma delete_action_goals (f : file) (s : string) :
  goals (loadData (disk (delete_action f s))) = goals (loadData f).
Proof.
  destruct (delete_action_cases f s) as [[_ ->] | [_ ->]]; [reflexivity |].
  cbn [disk saveData loadData json_document goals].
  apply loaded_goals_json_fixed.
Qed.

Lemma setgoal_action_transactions (f : file) (k am : string) :
  transactions (loadData (disk (setgoal_action f k am)))
  = transactions (loadData f).
Proof.
  unfold setgoal_action. destruct (isNaN _ || num_le _ _)%bool;
    [reflexivity |].
  cbn [disk saveData loadData json_document transactions].
  apply loaded_transactions_fixed.
Qed.

(** What a command never touches: [add] and [delete] leave every goal as it
    was, whatever their outcome, and [setgoal] leaves every transaction as it
    was. *)
Theorem commands_frame (c : Command) (f : file) :
  match c with
  | Add _ _ _ _ _ _ | Delete _ =>
      goals (loadData (disk (exec c f))) = goals (loadData f)
  | SetGoal _ _ =>
      transactions (loadData (disk (exec c f))) = transactions (loadData f)
  end.
Proof.
  destruct c; cbn [exec].
  - apply add_action_goals.
  - apply delete_action_goals.
  - apply setgoal_action_transactions.
Qed.

Lemma filter_keeps_other (n : Z) (l : list Transaction) :
  (forall t, In t l -> id t <> n) -> filter (keeps (idToString n)) l = l.
Proof.
  intros H. apply filter_all. intros t Ht. unfold keeps.
  apply negb_true_iff, String.eqb_neq. intros E.
  apply idToString_inj in E. exact (H t Ht E).
Qed.

(** The transactions that an accepted [add] leaves in the file. *)
Lemma add_action_accepted
    (now : Z) (today : string) (f : file) (ty am cat desc : string) :
  toLowerCase ty = "income" \/ toLowerCase ty = "expense" ->
  (isNaN (parseFloat am) || num_le (parseFloat am) pzero)%bool = false ->
  transactions (loadData (disk (add_action now today f ty am cat desc)))
  = transactions (loadData f)
    ++ [{| id := now; type := toLowerCase ty;
           amount := json_num (JNum (parseFloat am));
           category := cat; description := desc; date := today |}].
Proof.
  intros Hty Ham. unfold add_action.
  assert (Ety : (negb (String.eqb (toLowerCase ty) "income")
                 && negb (String.eqb (toLowerCase ty) "expense"))%bool
                = false) by (destruct Hty as [-> | ->]; reflexivity).
  rewrite Ety, Ham.
  cbn [disk saveData loadData json_document transactions].
  rewrite map_app, loaded_transactions_fixed. reflexivity.
Qed.

(** Adding and deleting again: when no transaction of the file has the id
    that the clock gives to a new one, an accepted [add] followed by [delete]
    with the decimal form of that id reports the deletion and leaves the
    transactions and the goals of the file as they were before the two
    runs. *)
Theorem add_then_delete
    (now : Z) (today : string) (f : file) (ty am cat desc : string) :
  toLowerCase ty = "income" \/ toLowerCase ty = "expense" ->
  num_lt pzero (parseFloat am) = true ->
  (forall t, In t (transactions (loadData f)) -> id t <> now) ->
  let f1 := disk (add_action now today f ty am cat desc) in
  let r := delete_action f1 (idToString now) in
  console r = [Deleted (idToString now)]
  /\ transactions (loadData (disk r)) = transactions (loadData f)
  /\ goals (loadData (disk r)) = goals (loadData f).
Proof.
  intros Hty Ham Hfresh. cbv zeta.
  set (f1 := disk (add_action now today f ty am cat desc)).
  assert (Hts : exists t, id t = now
                  /\ transactions (loadData f1)
                     = transactions (loadData f) ++ [t]).
  { eexists. split; [| apply (add_action_accepted now today f ty am cat desc);
                       [exact Hty | exact (positive_accepted _ Ham)]].
    reflexivity. }
  destruct Hts as [t [Hid Hts]].
  assert (Hfilter : filter (keeps (idToString now)) (transactions (loadData f1))
                    = transactions (loadData f)).
  { rewrite Hts, filter_app, (filter_keeps_other now _ Hfresh).
    cbn [filter]. unfold keeps at 1. rewrite Hid, String.eqb_refl.
    cbn [negb]. apply app_nil_r. }
  split; [| split].
  - destruct (delete_action_cases f1 (idToString now)) as [[Heq _] | [_ ->]];
      [| reflexivity].
    exfalso. rewrite Hfilter in Heq.
    apply (f_equal (@List.length _)) in Heq. rewrite Hts, length_app in Heq.
    cbn [List.length] in Heq. lia.
  - rewrite delete_transactions. exact Hfilter.
  - rewrite delete_action_goals. apply add_action_goals.
Qed.

(* ================================================================= *)
(** ** Goal alerts: what holds for every input *)

Lemma tally_fold_expenses (ts : list Transaction) (acc : Tally) :
  fold_left tally_step ts acc
  = fold_left tally_step (filter is_expense ts) acc.
Proof.
  revert acc. induction ts as [| t ts IH]; intros acc; [reflexivity |].
  cbn [fold_left filter]. destruct (is_expense t) eqn:E; cbn [fold_left].
  - apply IH.
  - replace (tally_step acc t) with acc; [apply IH |].
    unfold tally_step. unfold is_expense in E. rewrite E. reflexivity.
Qed.

(** Only the expenses count for the alerts: the transactions of any other
    type can be left out, wherever they stand in the list, and the alerts
    are the same. *)
Theorem checkAlerts_ignores_income (ts : list Transaction) (goals : obj jnum) :
  checkAlerts ts goals = checkAlerts (filter is_expense ts) goals.
Proof.
  unfold checkAlerts, tally. rewrite tally_fold_expenses. reflexivity.
Qed.

Lemma alert_for_shape (tl : Tally) (cat : string) (goal : jnum) :
  alert_for tl cat goal = []
  \/ exists a, alert_for tl cat goal = [a]
               /\ alert_key a = cat /\ alert_goal a = goal.
Proof.
  unfold alert_for. destruct (String.eqb cat "total") eqn:E.
  - apply String.eqb_eq in E.
    destruct (js_gt _ goal); [right | left; reflexivity].
    eexists. split; [reflexivity |]. cbn. split; congruence.
  - destruct (js_gt _ goal); [right | left; reflexivity].
    eexists. split; [reflexivity |]. split; reflexivity.
Qed.

Lemma picked_flat_map {X Y : Type} (R : X -> Y -> Prop) (g : X -> list Y)
    (xs : list X) :
  (forall x, g x = [] \/ exists y, g x = [y] /\ R x y) ->
  picked R xs (flat_map g xs).
Proof.
  intros Hg. induction xs as [| x xs IH]; cbn; [constructor |].
  destruct (Hg x) as [-> | [y [-> Hy]]]; cbn; constructor; assumption.
Qed.

Lemma picked_length {X Y : Type} (R : X -> Y -> Prop) (xs : list X)
    (ys : list Y) :
  picked R xs ys -> (List.length ys <= List.length xs)%nat.
Proof. induction 1; cbn; lia. Qed.

Lemma picked_In {X Y : Type} (R : X -> Y -> Prop) (xs : list X)
    (ys : list Y) (y : Y) :
  picked R xs ys -> In y ys -> exists x, In x xs /\ R x y.
Proof.
  induction 1 as [| x xs ys _ IH | x xs y' ys Hxy _ IH]; intros Hy.
  - destruct Hy.
  - destruct (IH Hy) as [x' [Hx' Hr]]. exists x'. split; [right |]; assumption.
  - destruct Hy as [<- | Hy].
    + exists x. split; [left; reflexivity | exact Hxy].
    + destruct (IH Hy) as [x' [Hx' Hr]]. exists x'.
      split; [right |]; assumption.
Qed.

Lemma picked_NoDup {X Y K : Type} (R : X -> Y -> Prop) (kx : X -> K)
    (ky : Y -> K) (xs : list X) (ys : list Y) :
  (forall x y, R x y -> ky y = kx x) ->
  picked R xs ys -> NoDup (map kx xs) -> NoDup (map ky ys).
Proof.
  intros Hk. induction 1 as [| x xs ys _ IH | x xs y ys Hxy Hp IH]; cbn;
    intros Hnd.
  - constructor.
  - apply IH. apply NoDup_cons_iff in Hnd. apply Hnd.
  - apply NoDup_cons_iff in Hnd as [Hx Hnd]. constructor; [| exact (IH Hnd)].
    intros Hin. apply in_map_iff in Hin as [y' [Hy' Hin]].
    destruct (picked_In R xs ys y' Hp Hin) as [x' [Hx' Hr]].
    apply Hx. apply in_map_iff. exists x'. split; [| exact Hx'].
    rewrite <- (Hk x' y' Hr), Hy'. apply Hk, Hxy.
Qed.

(** Whatever the transactions and the goals, the alerts are picked in the
    order of the keys of [goals], at most one for each goal, and each
    carries the key and the value of its goal: there are no more alerts
    than goals, and no two alerts for the same key when the keys are
    distinct. *)
Theorem checkAlerts_one_per_goal (ts : list Transaction) (goals : obj jnum) :
  picked (fun e a => alert_key a = fst e /\ alert_goal a = snd e)
    (ownEntries goals) (checkAlerts ts goals)
  /\ (List.length (checkAlerts ts goals) <= List.length goals)%nat
  /\ (NoDup (map fst goals) -> NoDup (map alert_key (checkAlerts ts goals))).
Proof.
  assert (Hp : picked (fun e a => alert_key a = fst e /\ alert_goal a = snd e)
                 (ownEntries goals) (checkAlerts ts goals)).
  { unfold checkAlerts. rewrite alerts_loop. cbn [app].
    apply picked_flat_map. intros e.
    destruct (alert_for_shape (tally ts) (fst e) (snd e)) as [H | [a [H Ha]]];
      [left; exact H | right; exists a; split; [exact H | exact Ha]]. }
  split; [exact Hp | split].
  - rewrite <- (Permutation_length (ownEntries_perm goals)).
    exact (picked_length _ _ _ Hp).
  - intros Hnd.
    apply (picked_NoDup _ fst alert_key _ _ (fun e a H => proj1 H) Hp).
    apply (Permutation_NoDup
             (Permutation_map fst (Permutation_sym (ownEntries_perm goals)))).
    exact Hnd.
Qed.

(* ================================================================= *)
(** ** What the file holds, whatever the runs *)

Lemma accepted_stored (x : number) :
  (isNaN x || num_le x pzero)%bool = false ->
  stored_amount (json_num (JNum x)).
Proof.
  number_cases x; intros H; try discriminate.
  - left. reflexivity.
  - right. eexists. split; [reflexivity | exact I].
Qed.

Lemma stored_amount_json (a : jnum) :
  stored_amount a -> json_num a = a.
Proof.
  intros [-> | [x [-> Hx]]]; [reflexivity | apply positive_finite_json, Hx].
Qed.

Lemma stored_amount_nonneg (a : jnum) :
  stored_amount a -> nonneg (ToNumber (val a)).
Proof.
  intros [-> | [x [-> Hx]]]; [reflexivity |].
  revert Hx. number_cases x; intros Hx; try contradiction; reflexivity.
Qed.

(** One run keeps the transactions of the file well formed, and gives an id
    only from the clock reading of an [add]. *)
Lemma exec_stored_transactions (c : Command) (f : file) :
  Forall stored_transaction (transactions (loadData f)) ->
  Forall stored_transaction (transactions (loadData (disk (exec c f))))
  /\ (forall t, In t (transactions (loadData (disk (exec c f)))) ->
                In t (transactions (loadData f)) \/ In (id t) (stamps [c])).
Proof.
  intros Hok. destruct c as [now today ty am cat desc | s | k am]; cbn [exec].
  - destruct (add_action_cases now today f ty am cat desc)
      as [-> | [Hty [Ham ->]]].
    + split; [exact Hok | intros t Ht; left; exact Ht].
    + split.
      * apply Forall_app. split; [exact Hok |].
        constructor; [| constructor].
        split; [apply accepted_stored, Ham | exact Hty].
      * intros t Ht. apply in_app_or in Ht as [Ht | [<- | []]];
          [left; exact Ht | right; left; reflexivity].
  - rewrite delete_transactions. split.
    + rewrite Forall_forall in *. intros t Ht. apply Hok.
      apply filter_In in Ht. apply Ht.
    + intros t Ht. left. apply filter_In in Ht. apply Ht.
  - rewrite setgoal_action_transactions.
    split; [exact Hok | intros t Ht; left; exact Ht].
Qed.

Lemma stamps_cons (c : Command) (cs : list Command) :
  stamps (c :: cs) = stamps [c] ++ stamps cs.
Proof. unfold stamps. cbn [flat_map]. rewrite app_nil_r. reflexivity. Qed.

Lemma run_stored_transactions (cs : list Command) (f : file) :
  Forall stored_transaction (transactions (loadData f)) ->
  Forall stored_transaction (transactions (loadData (run cs f)))
  /\ (forall t, In t (transactions (loadData (run cs f))) ->
                In t (transactions (loadData f)) \/ In (id t) (stamps cs)).
Proof.
  revert f. induction cs as [| c cs IH]; intros f Hok.
  - split; [exact Hok | intros t Ht; left; exact Ht].
  - change (run (c :: cs) f) with (run cs (disk (exec c f))).
    destruct (exec_stored_transactions c f Hok) as [Hok' Hid'].
    destruct (IH _ Hok') as [Hok'' Hid'']. split; [exact Hok'' |].
    intros t Ht. rewrite stamps_cons.
    destruct (Hid'' t Ht) as [H | H].
    + destruct (Hid' t H) as [H' | H']; [left; exact H' |].
      right. apply in_or_app. left. exact H'.
    + right. apply in_or_app. right. exact H.
Qed.

(** After any sequence of [add], [delete] and [setgoal] runs from the absent
    file, without any assumption on the clock or on the arguments: every
    transaction of the file has the type "income" or "expense" and an amount
    that is a positive finite number or [null], and its id is the clock
    reading of one of the [add] runs. *)
Theorem stored_transactions_valid (cs : list Command) :
  let ts := transactions (loadData (run cs None)) in
  Forall stored_transaction ts
  /\ (forall t, In t ts -> In (id t) (stamps cs)).
Proof.
  cbv zeta.
  destruct (run_stored_transactions cs None (Forall_nil _)) as [Hok Hid].
  split; [exact Hok |].
  intros t Ht. destruct (Hid t Ht) as [[] | H]. exact H.
Qed.

Lemma Forall_obj_set_keyed {A : Type} (K : string -> Prop) (P : A -> Prop)
    (o : obj A) (k : string) (v : A) :
  Forall (fun e => K (fst e) /\ P (snd e)) o ->
  P v -> (k <> "__proto__" -> K k) ->
  Forall (fun e => K (fst e) /\ P (snd e)) (obj_set o k v).
Proof.
  intros Ho Hv Hk. unfold obj_set. destruct (has_own o k).
  - induction Ho as [| [k' v'] o He Ho IH]; [constructor |].
    cbn. destruct (String.eqb k' k); constructor; auto.
    split; [apply He | exact Hv].
  - destruct (String.eqb k "__proto__") eqn:E; [exact Ho |].
    apply Forall_app. split; [exact Ho |]. constructor; [| constructor].
    split; [apply Hk, String.eqb_neq, E | exact Hv].
Qed.

Lemma Forall_json_obj_entries (Q : string * jnum -> Prop) (o : obj jnum) :
  Forall (fun e => Q (fst e, json_num (snd e))) o -> Forall Q (json_obj o).
Proof.
  intros H. unfold json_obj, map_values. apply Forall_map.
  apply (Permutation_Forall (Permutation_sym (ownEntries_perm o))), H.
Qed.

(** What is read from the file has its keys in the order of the keys. *)
Lemma loaded_goals_in_key_order (f : file) :
  ownEntries (goals (loadData f)) = goals (loadData f).
Proof.
  destruct f as [d |]; [| reflexivity].
  cbn [loadData json_document goals]. unfold json_obj.
  rewrite ownEntries_map_values, ownEntries_idempotent. reflexivity.
Qed.

Lemma exec_stored_goals (c : Command) (f : file) :
  Forall stored_goal (goals (loadData f))
  /\ NoDup (map fst (goals (loadData f))) ->
  Forall stored_goal (goals (loadData (disk (exec c f))))
  /\ NoDup (map fst (goals (loadData (disk (exec c f))))).
Proof.
  intros [Hok Hnd]. destruct c as [now today ty am cat desc | s | k am];
    cbn [exec].
  - rewrite add_action_goals. split; assumption.
  - rewrite delete_action_goals. split; assumption.
  - destruct (isNaN (parseFloat am) || num_le (parseFloat am) pzero)%bool
      eqn:E.
    + unfold setgoal_action. rewrite E. split; assumption.
    + destruct (setgoal_accepted f k am E) as [-> _]. split.
      * apply Forall_json_obj_entries. unfold stored_goal. cbn [fst snd].
        apply (Forall_obj_set_keyed (fun k => k <> "__proto__")
                 (fun a => stored_amount (json_num a))).
        -- rewrite Forall_forall in *. intros e He.
           destruct (Hok e He) as [Hk Ha]. split; [exact Hk |].
           rewrite (stored_amount_json _ Ha). exact Ha.
        -- apply accepted_stored, E.
        -- auto.
      * apply json_obj_NoDup, obj_set_NoDup, Hnd.
Qed.

(** After any sequence of runs from the absent file: no goal has the key
    "__proto__", every goal value is a positive finite number or [null], no
    two goals have the same key, and the goals are held in the order in which
    [for ... in] visits them. *)
Theorem stored_goals_valid (cs : list Command) :
  let g := goals (loadData (run cs None)) in
  Forall stored_goal g
  /\ NoDup (map fst g)
  /\ ownKeys g = map fst g.
Proof.
  cbv zeta.
  assert (H : forall f,
             Forall stored_goal (goals (loadData f))
             /\ NoDup (map fst (goals (loadData f))) ->
             Forall stored_goal (goals (loadData (run cs f)))
             /\ NoDup (map fst (goals (loadData (run cs f))))).
  { induction cs as [| c cs IH]; intros f Hf; [exact Hf |].
    change (run (c :: cs) f) with (run cs (disk (exec c f))).
    apply IH, exec_stored_goals, Hf. }
  destruct (H None) as [Hok Hnd]; [split; constructor |].
  split; [exact Hok | split; [exact Hnd |]].
  unfold ownKeys. rewrite loaded_goals_in_key_order. reflexivity.
Qed.

(* ================================================================= *)
(** ** Queries: proofs *)

Lemma list_rows_finished (ts : list Transaction) :
  Forall has_number ts -> list_rows ts = (rows ts, true).
Proof.
  induction 1 as [| t ts [x Hx] _ IH]; [reflexivity |].
  cbn [list_rows rows flat_map]. rewrite Hx, IH. reflexivity.
Qed.

Lemma list_rows_stops (pre post : list Transaction) (t : Transaction) :
  Forall has_number pre -> amount t = JNull ->
  list_rows (pre ++ t :: post) = (rows pre, false).
Proof.
  intros Hpre Ht. induction Hpre as [| p pre [x Hx] _ IH].
  - cbn. rewrite Ht. reflexivity.
  - cbn [app list_rows rows flat_map]. rewrite Hx, IH. reflexivity.
Qed.

Lemma rows_length (ts : list Transaction) :
  Forall has_number ts -> List.length (rows ts) = List.length ts.
Proof.
  induction 1 as [| t ts [x Hx] _ IH]; [reflexivity |].
  cbn [rows flat_map]. rewrite Hx. cbn. f_equal. exact IH.
Qed.

(** At the first transaction whose amount is [null], [list] fails: it has
    printed the header, the rule and the rows of the transactions before that
    one, prints no row for it or for those after it, and the run ends with
    status 1. *)
Theorem list_stops_at_null
    (f : file) (pre post : list Transaction) (t : Transaction) :
  transactions (loadData f) = pre ++ t :: post ->
  Forall has_number pre -> amount t = JNull ->
  list_action f
  = {| printed := ListHeader :: ListRule :: rows pre; status := 1 |}.
Proof.
  intros Hts Hpre Ht. unfold list_action. rewrite Hts.
  rewrite (list_rows_stops pre post t Hpre Ht).
  rewrite length_app. cbn [List.length].
  replace (List.length pre + S (List.length post))%nat
    with (S (List.length pre + List.length post)) by lia.
  reflexivity.
Qed.

Lemma list_stops_at_null_witness :
  let f := run [Add 10 "2025-01-01" "income" "1000" "salary" "";
                Add 20 "2025-01-02" "expense" "Infinity" "rent" "";
                Add 30 "2025-01-03" "expense" "5" "food" ""] None in
  list_action f
  = {| printed := [ListHeader; ListRule;
                   ListRow "10" "income" (of_Z 1000) "salary" ""
                     "2025-01-01"];
       status := 1 |}.
Proof.
  cbv zeta.
  set (f := run [Add 10 "2025-01-01" "income" "1000" "salary" "";
                 Add 20 "2025-01-02" "expense" "Infinity" "rent" "";
                 Add 30 "2025-01-03" "expense" "5" "food" ""] None).
  rewrite (list_stops_at_null f
             [entry 10 "income" (of_Z 1000) "salary"]
             [{| id := 30; type := "expense"; amount := JNum (of_Z 5);
                 category := "food"; description := "";
                 date := "2025-01-03" |}]
             {| id := 20; type := "expense"; amount := JNull;
                category := "rent"; description := ""; date := "2025-01-02" |}).
  - vm_compute. reflexivity.
  - vm_compute. reflexivity.
  - repeat constructor. eexists. reflexivity.
  - reflexivity.
Defined.

Lemma list_status_null (f : file) :
  (exists t, In t (transactions (loadData f)) /\ amount t = JNull) ->
  status (list_action f) = 1.
Proof.
  intros [t [Hin Ht]].
  assert (H : forall ts, In t ts ->
                exists pre t' post,
                  ts = pre ++ t' :: post /\ Forall has_number pre
                  /\ amount t' = JNull).
  { induction ts as [| u ts IH]; intros Hu; [destruct Hu |].
    destruct (amount u) as [x |] eqn:Eu.
    - destruct Hu as [-> | Hu]; [congruence |].
      destruct (IH Hu) as [pre [t' [post [-> [Hpre Ht']]]]].
      exists (u :: pre), t', post. split; [reflexivity | split; [| exact Ht']].
      constructor; [exists x; exact Eu | exact Hpre].
    - exists [], u, ts.
      split; [reflexivity | split; [constructor | exact Eu]]. }
  destruct (H _ Hin) as [pre [t' [post [Hts [Hpre Ht']]]]].
  unfold list_action. rewrite Hts, (list_rows_stops pre post t' Hpre Ht').
  destruct (Nat.eqb _ 0) eqn:E; [| reflexivity].
  apply Nat.eqb_eq in E. rewrite length_app in E. cbn in E. lia.
Qed.

(** An amount that reads as [Infinity] breaks [list]: once [add] has
    accepted it, with a valid type, every later [list] ends with status 1,
    whatever the file held before. *)
Theorem list_fails_after_infinity
    (now : Z) (today : string) (f : file) (ty am cat desc : string) :
  toLowerCase ty = "income" \/ toLowerCase ty = "expense" ->
  parseFloat am = infinity ->
  exitCode (add_action now today f ty am cat desc) = 0
  /\ status (list_action (disk (add_action now today f ty am cat desc))) = 1.
Proof.
  intros Hty Ham.
  assert (Hacc : (isNaN (parseFloat am) || num_le (parseFloat am) pzero)%bool
                 = false) by (rewrite Ham; reflexivity).
  split.
  - unfold add_action.
    assert (Ety : (negb (String.eqb (toLowerCase ty) "income")
                   && negb (String.eqb (toLowerCase ty) "expense"))%bool
                  = false) by (destruct Hty as [-> | ->]; reflexivity).
    rewrite Ety, Hacc. reflexivity.
  - apply list_status_null.
    rewrite (add_action_accepted now today f ty am cat desc Hty Hacc).
    eexists. split; [apply in_or_app; right; left; reflexivity |].
    cbn [amount]. rewrite Ham. reflexivity.
Qed.

Lemma list_fails_after_infinity_witness :
  let f := run [Add 10 "2025-01-01" "income" "1000" "salary" ""] None in
  exitCode (add_action 20 "2025-01-02" f "Expense" " Infinity" "rent" "") = 0
  /\ status (list_action
               (disk (add_action 20 "2025-01-02" f "Expense" " Infinity"
                        "rent" "")))
     = 1.
Proof.
  cbv zeta.
  apply list_fails_after_infinity;
    [right; reflexivity | vm_compute; reflexivity].
Defined.

Lemma exec_has_number (c : Command) (f : file) :
  amounts_not_infinite [c] ->
  Forall has_number (transactions (loadData f)) ->
  Forall has_number (transactions (loadData (disk (exec c f)))).
Proof.
  intros Hc Hok. apply Forall_inv in Hc.
  destruct c as [now today ty am cat desc | s | k am]; cbn [exec].
  - destruct (add_action_cases now today f ty am cat desc)
      as [-> | [_ [Ham ->]]]; [exact Hok |].
    apply Forall_app. split; [exact Hok |]. constructor; [| constructor].
    exists (parseFloat am). cbn [amount].
    apply positive_finite_json, accepted_finite; assumption.
  - rewrite delete_transactions. rewrite Forall_forall in *.
    intros t Ht. apply Hok. apply filter_In in Ht. apply Ht.
  - rewrite setgoal_action_transactions. exact Hok.
Qed.

(** As long as no [add] is given an amount that reads as [Infinity],
    [list] never fails: after any sequence of runs from the absent file it
    returns with status 0, having printed the notice when the file holds no
    transaction and otherwise one row for each transaction of the file. *)
Theorem list_succeeds_without_infinity (cs : list Command) :
  amounts_not_infinite cs ->
  let ts := transactions (loadData (run cs None)) in
  status (list_action (run cs None)) = 0
  /\ printed (list_action (run cs None))
     = match ts with
       | [] => [NoTransactions]
       | _ => ListHeader :: ListRule :: rows ts
       end
  /\ List.length (rows ts) = List.length ts.
Proof.
  intros Hcs. cbv zeta.
  assert (H : forall f, Forall has_number (transactions (loadData f)) ->
                        Forall has_number (transactions (loadData (run cs f)))).
  { induction Hcs as [| c cs Hc _ IH]; intros f Hf; [exact Hf |].
    change (run (c :: cs) f) with (run cs (disk (exec c f))).
    apply IH, exec_has_number; [constructor; [exact Hc | constructor] |].
    exact Hf. }
  specialize (H None (Forall_nil _)).
  split; [| split; [| apply rows_length, H]]; unfold list_action;
    destruct (transactions (loadData (run cs None))) as [| t ts] eqn:E;
    try reflexivity; cbn [List.length Nat.eqb];
    rewrite (list_rows_finished _ H); reflexivity.
Qed.

Lemma list_succeeds_without_infinity_witness :
  let cs := [Add 10 "2025-01-01" "income" "1000" "salary" "";
             SetGoal "groceries" "Infinity";
             Add 20 "2025-01-02" "expense" "abc" "groceries" "";
             Add 20 "2025-01-02" "expense" "12.5" "groceries" "";
             Delete "10"] in
  status (list_action (run cs None)) = 0
  /\ printed (list_action (run cs None))
     = [ListHeader; ListRule;
        ListRow "20" "expense" (parseFloat "12.5") "groceries" ""
          "2025-01-02"].
Proof.
  cbv zeta.
  set (cs := [Add 10 "2025-01-01" "income" "1000" "salary" "";
              SetGoal "groceries" "Infinity";
              Add 20 "2025-01-02" "expense" "abc" "groceries" "";
              Add 20 "2025-01-02" "expense" "12.5" "groceries" "";
              Delete "10"]).
  assert (Hcs : amounts_not_infinite cs).
  { repeat constructor; intros H; vm_compute in H; discriminate H. }
  destruct (list_succeeds_without_infinity cs Hcs) as [A [B _]].
  split; [exact A |]. rewrite B. vm_compute. reflexivity.
Defined.

Lemma own_get_In {A : Type} (o : obj A) (k : string) (v : A) :
  own_get o k = Some v -> In (k, v) o.
Proof.
  induction o as [| [k' v'] o IH]; cbn; [discriminate |].
  destruct (String.eqb k' k) eqn:E.
  - apply String.eqb_eq in E. intros H. left. congruence.
  - intros H. right. exact (IH H).
Qed.

(** What [goals] prints: the notice when the file holds no goal, otherwise
    the header, the rule and one row per goal, in the order of the file. *)
Lemma goals_action_report (f : file) :
  goals_action f
  = {| printed := match goals (loadData f) with
                  | [] => [NoGoals]
                  | g => GoalsHeader :: GoalsRule
                         :: map (fun e => GoalRow (fst e) (snd e)) g
                  end;
       status := 0 |}.
Proof.
  unfold goals_action, ownKeys. rewrite loaded_goals_in_key_order.
  destruct (goals (loadData f)); reflexivity.
Qed.

(** [setgoal] then [goals].  After a [setgoal] that accepted its amount,
    [goals] returns normally and prints a row for every goal of the file;
    for a key other than "__proto__" one of them is the row of that key, with
    the amount as the file holds it.  For the key "__proto__" and a file
    without goals, [goals] prints that no goal is set, though [setgoal]
    reported the goal as set. *)
Theorem goals_after_setgoal (f : file) (k am : string) :
  (isNaN (parseFloat am) || num_le (parseFloat am) pzero)%bool = false ->
  let f1 := disk (setgoal_action f k am) in
  console (setgoal_action f k am) = [GoalSet k (parseFloat am)]
  /\ status (goals_action f1) = 0
  /\ (k <> "__proto__" ->
        printed (goals_action f1)
        = GoalsHeader :: GoalsRule
          :: map (fun e => GoalRow (fst e) (snd e)) (goals (loadData f1))
        /\ In (GoalRow k (json_num (JNum (parseFloat am))))
             (printed (goals_action f1)))
  /\ (k = "__proto__" -> goals (loadData f) = [] ->
        printed (goals_action f1) = [NoGoals]).
Proof.
  intros Ham. cbv zeta.
  set (f1 := disk (setgoal_action f k am)).
  destruct (setgoal_accepted f k am Ham) as [Hg _]. fold f1 in Hg.
  split; [unfold setgoal_action; rewrite Ham; reflexivity |].
  split; [rewrite goals_action_report; reflexivity |].
  split.
  - intros Hk.
    assert (Hin : In (k, json_num (JNum (parseFloat am)))
                    (goals (loadData f1))).
    { apply own_get_In. rewrite Hg, own_get_json_obj.
      rewrite (own_get_set_eq _ k _ Hk). reflexivity. }
    rewrite goals_action_report. cbn [printed].
    destruct (goals (loadData f1)) as [| e g]; [destruct Hin |].
    split; [reflexivity |]. right. right.
    apply (in_map (fun e => GoalRow (fst e) (snd e)) _ _ Hin).
  - intros -> Hempty. rewrite goals_action_report, Hg, Hempty. reflexivity.
Qed.

Lemma goals_after_setgoal_witness :
  let f := run [SetGoal "groceries" "500"; SetGoal "7" "100"] None in
  printed (goals_action (disk (setgoal_action f "total" "2000")))
  = [GoalsHeader; GoalsRule; GoalRow "7" (JNum (of_Z 100));
     GoalRow "groceries" (JNum (of_Z 500));
     GoalRow "total" (JNum (of_Z 2000))]
  /\ printed (goals_action (disk (setgoal_action None "__proto__" "2000")))
     = [NoGoals].
Proof.
  cbv zeta.
  set (f := run [SetGoal "groceries" "500"; SetGoal "7" "100"] None).
  assert (Ham : (isNaN (parseFloat "2000")
                 || num_le (parseFloat "2000") pzero)%bool = false)
    by (vm_compute; reflexivity).
  destruct (goals_after_setgoal f "total" "2000" Ham) as [_ [_ [A _]]].
  destruct (goals_after_setgoal None "__proto__" "2000" Ham) as [_ [_ [_ B]]].
  split.
  - destruct A as [A _]; [discriminate |]. rewrite A. vm_compute. reflexivity.
  - apply B; reflexivity.
Defined.

(* ================================================================= *)
(** ** The balance as a number *)

(** Rounding a non-negative quantity never yields [NaN], whatever the sign
    it is given. *)
Lemma binary_round_aux_not_nan (s : bool) (m e : Z) (l : location) :
  0 <= m -> isNaN (binary_round_aux prec emax s m e l) = false.
Proof.
  intros H. unfold binary_round_aux.
  pose proof (shr_fexp_nonneg m e l H) as H1.
  destruct (shr_fexp prec emax m e l) as [mrs' e'] eqn:E1. cbn [fst] in H1.
  pose proof (round_nearest_even_nonneg (shr_m mrs')
                (loc_of_shr_record mrs') H1) as H2.
  pose proof (shr_fexp_nonneg _ e' loc_Exact H2) as H3.
  destruct (shr_fexp prec emax (round_nearest_even _ _) e' loc_Exact)
    as [mrs'' e''] eqn:E2.
  cbn [fst] in H3.
  destruct (shr_m mrs'') as [| p | p]; [reflexivity | | lia].
  destruct (e'' <=? emax - prec); reflexivity.
Qed.

Lemma binary_normalize_not_nan (m e : Z) :
  isNaN (binary_normalize prec emax m e false) = false.
Proof.
  destruct m as [| p | p]; cbn [binary_normalize]; [reflexivity | |];
    unfold binary_round; destruct (shl_align p e _) as [mz ez];
    apply binary_round_aux_not_nan; lia.
Qed.

(** The difference of two numbers that are neither negative nor [NaN] is
    [NaN] only for [Infinity - Infinity]. *)
Lemma num_sub_nan (x y : number) :
  nonneg x -> nonneg y ->
  (isNaN (num_sub x y) = true <-> x = infinity /\ y = infinity).
Proof.
  destruct x as [sx | sx | | sx mx ex]; destruct y as [sy | sy | | sy my ey];
    cbn [nonneg]; intros Hx Hy; try contradiction; subst;
    try (cbn; split; [discriminate | intros [H1 H2]; discriminate]).
  - cbn. split; [intros _; split; reflexivity | reflexivity].
  - unfold num_sub, SFsub. rewrite binary_normalize_not_nan.
    split; [discriminate | intros [H1 H2]; discriminate].
Qed.

Lemma sum_nonneg (ts : list Transaction) (x : number) :
  amounts_nonneg ts -> nonneg x -> nonneg (fold_left add_amount ts x).
Proof.
  intros Hts. revert x. induction Hts as [| t ts Ht _ IH]; intros x Hx;
    [exact Hx |].
  cbn [fold_left]. apply IH. apply num_plus_nonneg; assumption.
Qed.

Lemma amounts_nonneg_filter (p : Transaction -> bool) (ts : list Transaction) :
  amounts_nonneg ts -> amounts_nonneg (filter p ts).
Proof.
  unfold amounts_nonneg. rewrite !Forall_forall. intros H t Ht.
  apply H. apply filter_In in Ht. apply Ht.
Qed.

Lemma stored_types_valid (ts : list Transaction) :
  Forall stored_transaction ts -> types_valid ts /\ amounts_nonneg ts.
Proof.
  intros H. split; apply (Forall_impl _ (P := stored_transaction)); try exact H;
    intros t [Ha Hty]; [exact Hty | apply stored_amount_nonneg, Ha].
Qed.

(** What [balance] prints after any sequence of runs from the absent file:
    the income total minus the expense total of the file, which is a number
    unless both totals have overflowed to [Infinity]; only then is it
    [NaN]. *)
Theorem balance_nan_only_by_overflow (cs : list Command) :
  let ts := transactions (loadData (run cs None)) in
  balance_action (run cs None)
  = {| printed := [BalanceLine (num_sub (income_total ts) (expense_total ts))];
       status := 0 |}
  /\ (isNaN (num_sub (income_total ts) (expense_total ts)) = true
      <-> income_total ts = infinity /\ expense_total ts = infinity).
Proof.
  cbv zeta.
  destruct (run_stored_transactions cs None (Forall_nil _)) as [Hok _].
  destruct (stored_types_valid _ Hok) as [Hty Hnn].
  split.
  - unfold balance_action. rewrite calculateBalance_unfold.
    unfold expense_total. rewrite (not_income_is_expense _ Hty). reflexivity.
  - apply num_sub_nan; unfold income_total, expense_total, sum_amounts;
      (apply sum_nonneg; [apply amounts_nonneg_filter, Hnn | reflexivity]).
Qed.

(** The overflow does happen: four accepted amounts, each a finite number,
    leave a file whose balance is [NaN]. *)
Example balance_nan_reachable :
  let cs := [Add 1 "2025-01-01" "income" "1e308" "a" "";
             Add 2 "2025-01-01" "income" "1e308" "a" "";
             Add 3 "2025-01-01" "expense" "1e308" "b" "";
             Add 4 "2025-01-01" "expense" "1e308" "b" ""] in
  isFinite (parseFloat "1e308") = true
  /\ printed (balance_action (run cs None)) = [BalanceLine NaN].
Proof. cbv zeta. split; vm_compute; reflexivity. Qed.

Lemma add_then_delete_witness :
  let f := run [Add 10 "2025-01-01" "income" "1000" "salary" "";
                SetGoal "groceries" "500"] None in
  let f1 := disk (add_action 20 "2025-01-02" f "expense" "200" "groceries" "")
  in
  console (delete_action f1 "20") = [Deleted "20"]
  /\ transactions (loadData (disk (delete_action f1 "20")))
     = transactions (loadData f).
Proof.
  cbv zeta.
  set (f := run [Add 10 "2025-01-01" "income" "1000" "salary" "";
                 SetGoal "groceries" "500"] None).
  assert (Hty : toLowerCase "expense" = "income"
                \/ toLowerCase "expense" = "expense") by (right; reflexivity).
  assert (Ham : num_lt pzero (parseFloat "200") = true)
    by (vm_compute; reflexivity).
  assert (Hfresh : forall t, In t (transactions (loadData f)) -> id t <> 20).
  { intros t [<- | []]. vm_compute. discriminate. }
  pose proof (add_then_delete 20 "2025-01-02" f "expense" "200" "groceries" ""
                Hty Ham Hfresh) as A.
  cbv zeta in A. destruct A as [A1 [A2 _]].
  change (idToString 20) with "20" in A1, A2.
  split; [exact A1 | exact A2].
Defined.

(** [list] then [delete]: the ID column of a row is what [delete] needs.
    Given the id that [list] shows for a transaction of the file, [delete]
    reports the deletion, and the file then holds the other transactions, in
    their order, and no transaction with that id. *)
Theorem delete_listed_id (f : file) (t : Transaction) :
  In t (transactions (loadData f)) ->
  let r := delete_action f (idToString (id t)) in
  console r = [Deleted (idToString (id t))]
  /\ transactions (loadData (disk r))
     = filter (fun u => negb (id u =? id t)) (transactions (loadData f))
  /\ ~ In t (transactions (loadData (disk r))).
Proof.
  intros Ht. cbv zeta.
  set (r := delete_action f (idToString (id t))).
  assert (Hts : transactions (loadData (disk r))
                = filter (fun u => negb (id u =? id t))
                    (transactions (loadData f))).
  { unfold r. rewrite delete_transactions. apply filter_ext. intros u.
    unfold keeps. f_equal. destruct (id u =? id t) eqn:E.
    - apply Z.eqb_eq in E. rewrite E. apply String.eqb_refl.
    - apply String.eqb_neq. intros H. apply idToString_inj in H.
      apply Z.eqb_neq in E. contradiction. }
  assert (Hnot : ~ In t (transactions (loadData (disk r)))).
  { rewrite Hts. intros H. apply filter_In in H as [_ H].
    rewrite Z.eqb_refl in H. discriminate H. }
  split; [| split; [exact Hts | exact Hnot]].
  unfold r in *.
  destruct (delete_action_cases f (idToString (id t))) as [[Heq He] | [_ ->]];
    [| reflexivity].
  exfalso. apply Hnot. rewrite He. cbn [disk]. exact Ht.
Qed.

Lemma delete_listed_id_witness :
  let f := run [Add 10 "2025-01-01" "income" "1000" "salary" "";
                Add 20 "2025-01-02" "expense" "200" "groceries" ""] None in
  console (delete_action f "10") = [Deleted "10"]
  /\ map id (transactions (loadData (disk (delete_action f "10")))) = [20].
Proof.
  cbv zeta.
  set (f := run [Add 10 "2025-01-01" "income" "1000" "salary" "";
                 Add 20 "2025-01-02" "expense" "200" "groceries" ""] None).
  assert (Ht : In (entry 10 "income" (of_Z 1000) "salary")
                 (transactions (loadData f))) by (left; reflexivity).
  pose proof (delete_listed_id f _ Ht) as A. cbv zeta in A.
  destruct A as [A1 [A2 _]].
  change (idToString (id (entry 10 "income" (of_Z 1000) "salary")))
    with "10" in A1, A2.
  split; [exact A1 |]. rewrite A2. vm_compute. reflexivity.
Defined.


(** Without an expense there is no alert: when no transaction has the type
    "expense" (the list may be empty, or hold incomes only) and every goal
    value is a positive finite number or [null], [checkAlerts] returns no
    alert, whatever the keys of the goals. *)
Theorem no_expense_no_alert (ts : list Transaction) (goals : obj jnum) :
  (forall t, In t ts -> is_expense t = false) ->
  Forall (fun e => stored_amount (snd e)) goals ->
  checkAlerts ts goals = [].
Proof.
  intros Hts Hg. unfold checkAlerts, tally.
  rewrite tally_fold_expenses, (filter_none _ _ Hts), alerts_loop.
  cbn [app fold_left].
  assert (Hall : Forall (fun e => stored_amount (snd e)) (ownEntries goals))
    by (apply (Permutation_Forall
                 (Permutation_sym (ownEntries_perm goals))), Hg).
  induction Hall as [| e es He _ IH]; [reflexivity |].
  cbn [flat_map]. rewrite IH, app_nil_r.
  unfold alert_for, js_get. cbn [spentByCategory totalExpense own_get].
  destruct He as [-> | [x [-> Hx]]];
    destruct (String.eqb (fst e) "total"); destruct (is_proto_member (fst e));
    try reflexivity;
    revert Hx; number_cases x; intros Hx; try contradiction; reflexivity.
Qed.

Lemma no_expense_no_alert_witness :
  checkAlerts [entry 1 "income" (of_Z 1000) "groceries"]
    [("groceries", JNum (of_Z 500)); ("total", JNum (of_Z 10));
     ("rent", JNull)]
  = [].
Proof.
  apply no_expense_no_alert.
  - intros t [<- | []]. reflexivity.
  - constructor; [right; eexists; split; [reflexivity | exact I] |].
    constructor; [right; eexists; split; [reflexivity | exact I] |].
    constructor; [left; reflexivity | constructor].
Defined.
